(** * SignBridge AI service: speech pipeline and WebSocket registry

    A shallow embedding of [app/services/websocket_manager.py],
    [app/services/speech_service.py] and the two endpoints of [app/main.py]
    that call them, with the properties of the service stated over it.

    Python objects are modelled as follows.
    - A [dict] with string keys is a [gmap string pyval]; [d.get(k, v)] is
      [default v (d !! k)], [d[k] = v] is [<[k:=v]> d].
    - A [float] literal is the rational it denotes ([Qc]); the code performs no
      floating-point arithmetic, it only stores literals and compares one
      measured level against [-40].
    - A [str] is a [string] of code units; [lower] and [strip] act on the
      ASCII range.
    - A coroutine is run to completion without interleaving: [await e] is [e].
    - A computation that may raise is a function from a state to a
      [PyResult] and a new state; what is raised is an instance of
      [Exception] (what [except Exception] catches).
    - The imported libraries (openai, whisper, the Azure SDK, pydub), the
      file system and the clock are fields of an environment record; each
      call into them returns a value or raises.
    - A websocket is known by its identity. Whether [accept] or [send_text]
      raises on it is a condition of the transport that holds for the length
      of one call of the manager.
    - Calls of [logger] have no effect on any result and are left out. *)

From Stdlib Require Import Ascii QArith.Qcanon.
From stdpp Require Import base option list gmap strings numbers pretty.

Local Open Scope string_scope.
Local Open Scope list_scope.
Local Open Scope nat_scope.
#[local] Set Warnings "-register-all".

(** ** Python values *)

Inductive pyval : Type :=
| VNone
| VBool (b : bool)
| VInt (n : Z)
| VFloat (x : Qc)
| VStr (s : string)
| VBytes (b : list Byte.byte)
| VList (l : list pyval)
| VDict (d : list (string * pyval)).

(** Truth value of an object, as tested by [if x] and [not x]. *)
Definition truthy (v : pyval) : bool :=
  match v with
  | VNone => false
  | VBool b => b
  | VInt n => bool_decide (n ≠ 0%Z)
  | VFloat x => bool_decide (x ≠ 0%Qc)
  | VStr s => bool_decide (s ≠ "")
  | VBytes b => bool_decide (b ≠ [])
  | VList l => match l with [] => false | _ => true end
  | VDict d => match d with [] => false | _ => true end
  end.

(** An instance of [Exception]; [str(e)] is [exc_str e]. *)
Record Exception : Type := Exc { exc_str : string }.

Inductive PyResult (A : Type) : Type :=
| Return (a : A)
| Raise (e : Exception).
Arguments Return {A} a.
Arguments Raise {A} e.

(** State and exception monad: the state is what the method mutates. *)
Definition Py (S A : Type) : Type := S → PyResult A * S.

Definition py_ret {S A} (a : A) : Py S A := λ s, (Return a, s).

Definition py_raise {S A} (e : Exception) : Py S A := λ s, (Raise e, s).

Definition py_bind {S A B} (c : Py S A) (k : A → Py S B) : Py S B :=
  λ s, match c s with
       | (Return a, s') => k a s'
       | (Raise e, s') => (Raise e, s')
       end.

(** [try: body except Exception as e: handler e]. *)
Definition try_except {S A} (body : Py S A) (handler : Exception → Py S A) : Py S A :=
  λ s, match body s with
       | (Return a, s') => (Return a, s')
       | (Raise e, s') => handler e s'
       end.

Definition py_lift {S A} (r : PyResult A) : Py S A := λ s, (r, s).

Definition py_get {S} : Py S S := λ s, (Return s, s).

Definition py_modify {S} (f : S → S) : Py S unit := λ s, (Return tt, f s).

Notation "'let*' x ':=' c 'in' k" := (py_bind c (λ x, k))
  (at level 10, x name, c at level 100, k at level 200, only parsing).
Notation "c ';;;' k" := (py_bind c (λ _, k))
  (at level 100, k at level 200, right associativity, only parsing).

(** ** app/services/websocket_manager.py *)

(** A [WebSocket] object is known to the manager by identity only. *)
Abbreviation WebSocket := nat (only parsing).

(** What happened on the wire when [send_text] was called. *)
Inductive wire_event (Msg : Type) : Type :=
| Delivered (ws : WebSocket) (m : Msg)
| Failed (ws : WebSocket) (m : Msg).
Arguments Delivered {Msg} ws m.
Arguments Failed {Msg} ws m.

(** The transport under the manager. [accept_error ws] is what
    [websocket.accept()] raises, if anything; [severed ws] is what
    [websocket.send_text] raises on a connection whose transport is gone.
    Both are conditions of the connection, fixed for the length of one call
    of the manager; [wire] records every [send_text] call, oldest first. *)
Record Transport (Msg : Type) : Type := mkTransport {
  accept_error : WebSocket → option Exception;
  severed : WebSocket → option Exception;
  wire : list (wire_event Msg)
}.
Arguments mkTransport {Msg} _ _ _.
Arguments accept_error {Msg} _ _.
Arguments severed {Msg} _ _.
Arguments wire {Msg} _.

Record WebSocketManager : Type := mkManager {
  active_connections : list WebSocket;
  connection_info : gmap WebSocket (gmap string pyval)
}.

(** [WebSocketManager.__init__] *)
Definition manager_init : WebSocketManager :=
  {| active_connections := []; connection_info := ∅ |}.

(** [list.remove(x)]: drops the first occurrence of [x]. The manager only
    calls it under [if x in l], so the [ValueError] case does not arise. *)
Fixpoint list_remove_first (x : WebSocket) (l : list WebSocket) : list WebSocket :=
  match l with
  | [] => []
  | y :: l' => if decide (x = y) then l' else y :: list_remove_first x l'
  end.

Definition new_connection_info : gmap string pyval :=
  {[ "connected_at" := VNone; "client_type" := VNone; "session_id" := VNone ]}.

(** [WebSocketManager.disconnect]: touches the registry only. *)
Definition disconnect (websocket : WebSocket) (self : WebSocketManager) : WebSocketManager :=
  if decide (websocket ∈ active_connections self) then
    {| active_connections := list_remove_first websocket (active_connections self);
       connection_info :=
         if decide (is_Some (connection_info self !! websocket))
         then delete websocket (connection_info self)
         else connection_info self |}
  else self.

(** [WebSocketManager.get_connection_count] *)
Definition get_connection_count (self : WebSocketManager) : nat :=
  length (active_connections self).

(** [WebSocketManager.update_connection_info] *)
Definition update_connection_info (websocket : WebSocket) (info : gmap string pyval)
    (self : WebSocketManager) : WebSocketManager :=
  match connection_info self !! websocket with
  | Some old =>
      {| active_connections := active_connections self;
         connection_info := <[websocket := info ∪ old]> (connection_info self) |}
  | None => self
  end.

(** [info.get("session_id") == session_id], for the [str] that
    [send_to_session] is given: only an equal [str] compares equal. *)
Definition in_session (session_id : string) (info : gmap string pyval) : bool :=
  match info !! "session_id" with
  | Some (VStr s) => bool_decide (s = session_id)
  | _ => false
  end.

(** The [RuntimeError] of a dict iterator that finds the size of its dict
    changed. *)
Definition dict_changed_size : Exception :=
  Exc "dictionary changed size during iteration".

Section Manager.
Context {Msg : Type}.

Definition Net : Type := Transport Msg * WebSocketManager.

(** [await websocket.accept()] *)
Definition ws_accept (websocket : WebSocket) : Py Net unit :=
  λ s, match accept_error s.1 websocket with
       | Some e => (Raise e, s)
       | None => (Return tt, s)
       end.

(** [await websocket.send_text(message)] *)
Definition ws_send_text (websocket : WebSocket) (message : Msg) : Py Net unit :=
  λ s, let t := s.1 in
       match severed t websocket with
       | Some e =>
           (Raise e, (mkTransport (accept_error t) (severed t)
                        (wire t ++ [Failed websocket message]), s.2))
       | None =>
           (Return tt, (mkTransport (accept_error t) (severed t)
                          (wire t ++ [Delivered websocket message]), s.2))
       end.

Definition on_manager (f : WebSocketManager → WebSocketManager) : Py Net unit :=
  py_modify (λ s, (s.1, f s.2)).

(** [WebSocketManager.connect] *)
Definition connect (websocket : WebSocket) : Py Net unit :=
  ws_accept websocket ;;;
  on_manager (λ self,
    {| active_connections := active_connections self ++ [websocket];
       connection_info := <[websocket := new_connection_info]> (connection_info self) |}).

(** [WebSocketManager.send_personal_message] *)
Definition send_personal_message (message : Msg) (websocket : WebSocket) : Py Net unit :=
  try_except
    (ws_send_text websocket message)
    (λ e, on_manager (disconnect websocket)).

(** The first loop of [broadcast]: the list iterated over is
    [self.active_connections], which the loop body does not change. *)
Fixpoint broadcast_loop (message : Msg) (connections : list WebSocket)
    (disconnected_connections : list WebSocket) : Py Net (list WebSocket) :=
  match connections with
  | [] => py_ret disconnected_connections
  | connection :: rest =>
      let* disconnected_connections' :=
        try_except
          (ws_send_text connection message ;;; py_ret disconnected_connections)
          (λ e, py_ret (disconnected_connections ++ [connection])) in
      broadcast_loop message rest disconnected_connections'
  end.

(** The second loop of [broadcast]. *)
Fixpoint cleanup_loop (disconnected_connections : list WebSocket) : Py Net unit :=
  match disconnected_connections with
  | [] => py_ret tt
  | connection :: rest =>
      on_manager (disconnect connection) ;;; cleanup_loop rest
  end.

(** [WebSocketManager.broadcast] *)
Definition broadcast (message : Msg) : Py Net unit :=
  let* self := py_get in
  let* disconnected_connections :=
    broadcast_loop message (active_connections self.2) [] in
  cleanup_loop disconnected_connections.

(** The loop of [send_to_session]. The [gmap] does not record the order
    in which a dict yields its items, so the loop is given [keys], the keys
    of [connection_info] in that order. Each step of a dict iterator first
    compares the size of the dict with [used], its size when the iteration
    began, and raises if they differ; then it yields the next item or stops.
    A key that is not in the dict is not yielded. *)
Fixpoint send_to_session_loop (session_id : string) (message : Msg) (used : nat)
    (keys : list WebSocket) : Py Net unit :=
  let* s := py_get in
  if bool_decide (size (connection_info s.2) ≠ used) then py_raise dict_changed_size
  else
    match keys with
    | [] => py_ret tt
    | websocket :: rest =>
        match connection_info s.2 !! websocket with
        | Some info =>
            (if in_session session_id info
             then send_personal_message message websocket
             else py_ret tt) ;;;
            send_to_session_loop session_id message used rest
        | None => send_to_session_loop session_id message used rest
        end
    end.

(** [WebSocketManager.send_to_session], iterating in the order [keys]. *)
Definition send_to_session (keys : list WebSocket) (session_id : string) (message : Msg)
    : Py Net unit :=
  let* s := py_get in
  send_to_session_loop session_id message (size (connection_info s.2)) keys.

End Manager.

(** The operations a caller applies to the registry. A [Connect] carries
    what [accept()] does on that call. *)
Inductive registry_op : Type :=
| Connect (websocket : WebSocket) (accept_raises : option Exception)
| Disconnect (websocket : WebSocket).

Definition quiet_transport (accept_raises : option Exception) : Transport unit :=
  mkTransport (λ _, accept_raises) (λ _, None) [].

(** One operation on the registry. An exception of [connect] goes to the
    caller; the registry is what the call left behind. *)
Definition apply_op (self : WebSocketManager) (o : registry_op) : WebSocketManager :=
  match o with
  | Connect websocket r => (connect websocket (quiet_transport r, self)).2.2
  | Disconnect websocket => disconnect websocket self
  end.

Definition run_ops (ops : list registry_op) (self : WebSocketManager) : WebSocketManager :=
  foldl apply_op self ops.

(** [connect] is never called on a websocket that is registered at that
    moment. *)
Fixpoint no_reconnect (self : WebSocketManager) (ops : list registry_op) : bool :=
  match ops with
  | [] => true
  | o :: rest =>
      match o with
      | Connect websocket _ => bool_decide (websocket ∉ active_connections self)
      | Disconnect _ => true
      end && no_reconnect (apply_op self o) rest
  end.

(** ** app/config.py and the imported libraries *)

(** The attributes of [Settings] that the speech service reads.
    [config.py] declares no [AZURE_SPEECH_KEY] and no [AZURE_SPEECH_REGION];
    an attribute that the settings object does not have is [None] here. *)
Record Settings : Type := mkSettings {
  OPENAI_API_KEY : string;
  AZURE_SPEECH_KEY : option string;
  AZURE_SPEECH_REGION : option string;
  SPEECH_RECOGNITION_ENGINE : string;
  WHISPER_MODEL : string;
  AUDIO_SAMPLE_RATE : Z
}.

(** The defaults of [config.py]. *)
Definition default_settings : Settings :=
  {| OPENAI_API_KEY := "";
     AZURE_SPEECH_KEY := None;
     AZURE_SPEECH_REGION := None;
     SPEECH_RECOGNITION_ENGINE := "openai";
     WHISPER_MODEL := "base";
     AUDIO_SAMPLE_RATE := 16000 |}.

(** A file object handed to the OpenAI client. *)
Record FileObj : Type := mkFile { file_name : pyval; file_data : list Byte.byte }.

(** The [verbose_json] transcript object; [t_language] and [t_duration]
    are [None] when the attribute is missing ([getattr] with a default). *)
Record Transcript : Type := mkTranscript {
  t_text : string;
  t_language : option string;
  t_duration : option Qc
}.

(** [import openai]: [client_transcribe key file] stands for
    [openai.OpenAI(api_key=key)] followed by
    [client.audio.transcriptions.create(model="whisper-1", file=file,
    response_format="verbose_json")]. *)
Record OpenAIModule : Type := mkOpenAI {
  client_transcribe : string → FileObj → PyResult Transcript
}.

(** What [model.transcribe(path)] returns: a dict with a [str] under
    ["text"] and under ["language"]. *)
Record WhisperOutput : Type := mkWhisperOutput { w_text : string; w_language : string }.

Record WhisperModel : Type := mkWhisperModel {
  model_transcribe : pyval → PyResult WhisperOutput
}.

(** [import whisper] *)
Record WhisperModule : Type := mkWhisper {
  load_model : string → PyResult WhisperModel
}.

Record SpeechConfig : Type := mkSpeechConfig {
  subscription : string;
  region : string;
  speech_recognition_language : string
}.

Inductive AudioInput : Type :=
| PushStream (data : list Byte.byte)
| FromFile (filename : pyval).

Inductive ResultReason : Type := RecognizedSpeech | NoMatch | Canceled.

Record Recognition : Type := mkRecognition { reason : ResultReason; recognized_text : string }.

(** [import azure.cognitiveservices.speech as speechsdk]:
    [sdk_audio_config] builds the input stream and the [AudioConfig];
    [sdk_recognize_once] builds the [SpeechRecognizer] and calls
    [recognize_once]. *)
Record SpeechSDKModule : Type := mkSpeechSDK {
  sdk_audio_config : AudioInput → PyResult unit;
  sdk_recognize_once : SpeechConfig → AudioInput → PyResult Recognition
}.

(** A level in dBFS; digital silence measures minus infinity. *)
Inductive level : Type := NegInf | Level (x : Qc).

Definition level_lt (l : level) (bound : Qc) : bool :=
  match l with
  | NegInf => true
  | Level x => bool_decide (x < bound)%Qc
  end.

(** A pydub [AudioSegment]: [len(segment)] in milliseconds, [segment.dBFS],
    and what [segment.export(buffer, format="wav")] leaves in the buffer. *)
Record Segment : Type := mkSegment {
  seg_len : Z;
  seg_dBFS : level;
  seg_export_wav : PyResult (list Byte.byte)
}.

(** [from pydub import AudioSegment]: [from_raw data frame_rate] with
    [sample_width=2] and [channels=1]. *)
Record PydubModule : Type := mkPydub {
  from_raw : list Byte.byte → Z → PyResult Segment
}.

(** The module-level names of [speech_service.py]. An optional import that
    failed is [None]. [open_rb] is [open(path, "rb")] read to the end;
    [tempfile_write] creates the named temporary [.wav] file, writes the
    bytes and gives its name; [now_ms] is [int(time.time() * 1000)]. *)
Record Modules : Type := mkModules {
  openai : option OpenAIModule;
  whisper : option WhisperModule;
  speechsdk : option SpeechSDKModule;
  AudioSegment : option PydubModule;
  open_rb : pyval → PyResult (list Byte.byte);
  tempfile_write : list Byte.byte → PyResult string;
  now_ms : Z
}.

(** ** Strings *)

Definition ascii_lower (c : ascii) : ascii :=
  let n := nat_of_ascii c in
  if bool_decide (65 ≤ n ≤ 90)%nat then ascii_of_nat (n + 32) else c.

(** [str.lower] *)
Fixpoint lower (s : string) : string :=
  match s with
  | EmptyString => EmptyString
  | String c s' => String (ascii_lower c) (lower s')
  end.

(** [str.isspace] on one character: tab to carriage return, the four
    separators 28 to 31, and the space. *)
Definition is_space (c : ascii) : bool :=
  let n := nat_of_ascii c in
  bool_decide (9 ≤ n ≤ 13)%nat || bool_decide (28 ≤ n ≤ 32)%nat.

Fixpoint lstrip (s : string) : string :=
  match s with
  | EmptyString => EmptyString
  | String c s' => if is_space c then lstrip s' else s
  end.

Fixpoint rstrip (s : string) : string :=
  match s with
  | EmptyString => EmptyString
  | String c s' =>
      match rstrip s' with
      | EmptyString => if is_space c then EmptyString else String c EmptyString
      | r => String c r
      end
  end.

(** [str.strip] *)
Definition strip (s : string) : string := rstrip (lstrip s).

Definition type_name (v : pyval) : string :=
  match v with
  | VNone => "NoneType"
  | VBool _ => "bool"
  | VInt _ => "int"
  | VFloat _ => "float"
  | VStr _ => "str"
  | VBytes _ => "bytes"
  | VList _ => "list"
  | VDict _ => "dict"
  end.

(** [len(v)] *)
Definition py_len (v : pyval) : PyResult nat :=
  match v with
  | VStr s => Return (String.length s)
  | VBytes b => Return (length b)
  | VList l => Return (length l)
  | VDict d => Return (length d)
  | _ => Raise (Exc ("object of type '" +:+ type_name v +:+ "' has no len()"))
  end.

(** ** app/services/speech_service.py *)

Abbreviation Dict := (gmap string pyval) (only parsing).

Definition float_0_0 : Qc := Q2Qc (QArith_base.Qmake 0 1).
Definition float_0_85 : Qc := Q2Qc (QArith_base.Qmake 85 100).
Definition float_0_9 : Qc := Q2Qc (QArith_base.Qmake 9 10).
Definition silence_floor : Qc := Q2Qc (QArith_base.Qmake (-40) 1).

(** The attributes of a [SpeechService] object. [azure_speech_config] is
    [None] while the attribute has not been assigned; [openai_api_key] is the
    module attribute [openai.api_key]. *)
Record SpeechService : Type := mkService {
  settings : Settings;
  whisper_model : option WhisperModel;
  azure_speech_config : option SpeechConfig;
  openai_api_key : option string
}.

Definition set_whisper_model (m : WhisperModel) (self : SpeechService) : SpeechService :=
  {| settings := settings self;
     whisper_model := Some m;
     azure_speech_config := azure_speech_config self;
     openai_api_key := openai_api_key self |}.

(** The dict every [except] clause of the backends returns. *)
Definition error_result (e : Exception) : Dict :=
  {[ "text" := VStr ""; "confidence" := VFloat float_0_0; "error" := VStr (exc_str e) ]}.

Definition attribute_error (obj attr : string) : Exception :=
  Exc ("'" +:+ obj +:+ "' object has no attribute '" +:+ attr +:+ "'").

Section Speech.
Context (env : Modules).

(** [SpeechService._init_openai] *)
Definition _init_openai (self : SpeechService) : SpeechService :=
  if bool_decide (OPENAI_API_KEY (settings self) ≠ "") && bool_decide (is_Some (openai env))
  then {| settings := settings self;
          whisper_model := whisper_model self;
          azure_speech_config := azure_speech_config self;
          openai_api_key := Some (OPENAI_API_KEY (settings self)) |}
  else self.

(** [SpeechService._init_azure]; [and] stops at the first falsy operand. *)
Definition _init_azure : Py SpeechService unit :=
  let* self := py_get in
  match AZURE_SPEECH_KEY (settings self) with
  | None => py_raise (attribute_error "Settings" "AZURE_SPEECH_KEY")
  | Some key =>
      if bool_decide (key = "") then py_ret tt else
      match AZURE_SPEECH_REGION (settings self) with
      | None => py_raise (attribute_error "Settings" "AZURE_SPEECH_REGION")
      | Some reg =>
          if bool_decide (reg = "") then py_ret tt else
          match speechsdk env with
          | None => py_ret tt
          | Some _ =>
              py_modify (λ self,
                {| settings := settings self;
                   whisper_model := whisper_model self;
                   azure_speech_config :=
                     Some {| subscription := key; region := reg;
                             speech_recognition_language := "en-GB" |};
                   openai_api_key := openai_api_key self |})
          end
      end
  end.

(** [SpeechService.__init__], given what [get_settings()] returned. *)
Definition SpeechService_init (s : Settings) : PyResult SpeechService * SpeechService :=
  (py_modify _init_openai ;;; _init_azure ;;; py_get)
    {| settings := s; whisper_model := None;
       azure_speech_config := None; openai_api_key := None |}.

(** [SpeechService._transcribe_openai] *)
Definition _transcribe_openai (audio_data : pyval) : Py SpeechService Dict :=
  try_except
    (let* audio_file :=
       match audio_data with
       | VBytes b => py_ret {| file_name := VStr "audio.wav"; file_data := b |}
       | _ =>
           let* content := py_lift (open_rb env audio_data) in
           py_ret {| file_name := audio_data; file_data := content |}
       end in
     let* self := py_get in
     let* transcript :=
       match openai env with
       | Some lib => py_lift (client_transcribe lib (OPENAI_API_KEY (settings self)) audio_file)
       | None => py_raise (attribute_error "NoneType" "OpenAI")
       end in
     py_ret ({[ "text" := VStr (t_text transcript);
                "confidence" := VFloat float_0_9;
                "language" := VStr (default "en" (t_language transcript));
                "duration" := from_option VFloat (VInt 0) (t_duration transcript) ]} : Dict))
    (λ e, py_ret (error_result e)).

(** [SpeechService._transcribe_whisper_local] *)
Definition _transcribe_whisper_local (audio_data : pyval) : Py SpeechService Dict :=
  try_except
    (match whisper env with
     | None =>
         py_ret ({[ "text" := VStr ""; "confidence" := VFloat float_0_0;
                    "error" := VStr "Whisper not installed" ]} : Dict)
     | Some lib =>
         let* self := py_get in
         let* model :=
           match whisper_model self with
           | Some m => py_ret m
           | None =>
               let* m := py_lift (load_model lib (WHISPER_MODEL (settings self))) in
               py_modify (set_whisper_model m) ;;; py_ret m
           end in
         let* audio_path :=
           match audio_data with
           | VBytes b =>
               let* name := py_lift (tempfile_write env b) in py_ret (VStr name)
           | _ => py_ret audio_data
           end in
         let* result := py_lift (model_transcribe model audio_path) in
         py_ret ({[ "text" := VStr (strip (w_text result));
                    "confidence" := VFloat float_0_85;
                    "language" := VStr (w_language result) ]} : Dict)
     end)
    (λ e, py_ret (error_result e)).

(** [SpeechService._transcribe_azure] *)
Definition _transcribe_azure (audio_data : pyval) : Py SpeechService Dict :=
  try_except
    (match speechsdk env with
     | None =>
         py_ret ({[ "text" := VStr ""; "confidence" := VFloat float_0_0;
                    "error" := VStr "Azure Speech SDK not installed" ]} : Dict)
     | Some sdk =>
         let source :=
           match audio_data with
           | VBytes b => PushStream b
           | _ => FromFile audio_data
           end in
         py_lift (sdk_audio_config sdk source) ;;;
         let* self := py_get in
         let* speech_config :=
           match azure_speech_config self with
           | Some c => py_ret c
           | None => py_raise (attribute_error "SpeechService" "azure_speech_config")
           end in
         let* result := py_lift (sdk_recognize_once sdk speech_config source) in
         match reason result with
         | RecognizedSpeech =>
             py_ret ({[ "text" := VStr (recognized_text result);
                        "confidence" := VFloat float_0_9;
                        "language" := VStr "en-GB" ]} : Dict)
         | _ =>
             py_ret ({[ "text" := VStr ""; "confidence" := VFloat float_0_0;
                        "error" := VStr "No speech recognized" ]} : Dict)
         end
     end)
    (λ e, py_ret (error_result e)).

(** [SpeechService.transcribe] *)
Definition transcribe (audio_data : pyval) : Py SpeechService Dict :=
  try_except
    (let* self := py_get in
     let engine := lower (SPEECH_RECOGNITION_ENGINE (settings self)) in
     if bool_decide (engine = "openai") && bool_decide (is_Some (openai env)) then
       _transcribe_openai audio_data
     else if bool_decide (engine = "azure") && bool_decide (is_Some (speechsdk env)) then
       _transcribe_azure audio_data
     else
       _transcribe_whisper_local audio_data)
    (λ e, py_ret (error_result e)).

(** The dict returned for a chunk that is too short or too quiet. *)
Definition not_ready : Dict :=
  {[ "text" := VStr ""; "confidence" := VFloat float_0_0; "is_final" := VBool false ]}.

(** [SpeechService.transcribe_realtime] *)
Definition transcribe_realtime (audio_chunk : list Byte.byte) : Py SpeechService Dict :=
  try_except
    (match AudioSegment env with
     | None => transcribe (VBytes audio_chunk)
     | Some pydub =>
         let* self := py_get in
         let* audio_segment :=
           py_lift (from_raw pydub audio_chunk (AUDIO_SAMPLE_RATE (settings self))) in
         if bool_decide (seg_len audio_segment < 500)%Z then py_ret not_ready
         else if level_lt (seg_dBFS audio_segment) silence_floor then py_ret not_ready
         else
           let* audio_bytes := py_lift (seg_export_wav audio_segment) in
           let* result := _transcribe_whisper_local (VBytes audio_bytes) in
           let* n := py_lift (py_len (default (VStr "") (result !! "text"))) in
           py_ret (<["is_final" := VBool (bool_decide (0 < n)%nat)]> result)
     end)
    (λ e, py_ret (<["error" := VStr (exc_str e)]> not_ready)).

(** [SpeechService.get_timestamp] *)
Definition get_timestamp : string := pretty (now_ms env).

End Speech.

(** ** app/main.py *)

(** The body of a successful [POST /transcribe] response. *)
Record TranscribeResponse : Type := mkResponse {
  transcription : Dict;
  timestamp : string;
  confidence : pyval;
  language : string
}.

(** What leaves an endpoint function other than a return value:
    an [HTTPException], or any other exception. *)
Inductive raised : Type :=
| HTTPException (status_code : Z) (detail : string)
| Uncaught (e : Exception).

(** The JSON text message of the live endpoint, kept as the dict that
    [json.dumps] serialises. *)
Record LiveMessage : Type := mkLive {
  msg_type : string;
  msg_text : pyval;
  msg_confidence : pyval;
  msg_is_final : pyval;
  msg_language : string
}.

(** The module-level objects of [main.py]: [speech_service],
    [websocket_manager] and the transport under the latter. *)
Definition App : Type := SpeechService * @Net LiveMessage.

Definition on_speech {A} (c : Py SpeechService A) : Py App A :=
  λ s, let '(r, sp) := c s.1 in (r, (sp, s.2)).

Definition on_net {A} (c : Py (@Net LiveMessage) A) : Py App A :=
  λ s, let '(r, n) := c s.2 in (r, (s.1, n)).

(** How the [while True] loop of the live endpoint ends: [receive_bytes]
    raises [WebSocketDisconnect], or it raises something else. *)
Inductive session_end : Type :=
| ClientDisconnect
| ReceiveError (e : Exception).

(** The [TypeError] of [await None]. *)
Definition await_none_error : Exception :=
  Exc "object NoneType can't be used in 'await' expression".

Section Endpoints.
Context (env : Modules).

(** [transcribe_audio], the handler of [POST /transcribe]. The [try]
    body is evaluated first; its [except Exception] clause catches the
    [HTTPException] raised inside it as well. *)
Definition transcribe_audio (audio_data : Dict)
    : SpeechService → (raised + TranscribeResponse) * SpeechService :=
  λ speech_service,
    let body : (raised + TranscribeResponse) * SpeechService :=
      let audio_file := default VNone (audio_data !! "audio") in
      if negb (truthy audio_file) then
        (inl (HTTPException 400 "No audio data provided"), speech_service)
      else
        match transcribe env audio_file speech_service with
        | (Return transcription, speech_service') =>
            (inr {| transcription := transcription;
                    timestamp := get_timestamp env;
                    confidence := default (VFloat float_0_0) (transcription !! "confidence");
                    language := "en-GB" |}, speech_service')
        | (Raise e, speech_service') => (inl (Uncaught e), speech_service')
        end in
    match body with
    | (inl _, speech_service') =>
        (inl (HTTPException 500 "Transcription failed"), speech_service')
    | (inr response, speech_service') => (inr response, speech_service')
    end.

(** One turn of the [while True] loop of [websocket_live_transcription],
    for the chunk [data] that [receive_bytes] returned. *)
Definition live_transcription_step (websocket : WebSocket) (data : list Byte.byte)
    : Py App unit :=
  let* transcription := on_speech (transcribe_realtime env data) in
  on_net (send_personal_message
            {| msg_type := "transcription";
               msg_text := default (VStr "") (transcription !! "text");
               msg_confidence := default (VFloat float_0_0) (transcription !! "confidence");
               msg_is_final := default (VBool false) (transcription !! "is_final");
               msg_language := "en-GB" |}
            websocket).

Fixpoint receive_loop (websocket : WebSocket) (incoming : list (list Byte.byte))
    : Py App unit :=
  match incoming with
  | [] => py_ret tt
  | data :: rest =>
      live_transcription_step websocket data ;;; receive_loop websocket rest
  end.

(** [websocket_live_transcription] for a client that sends the chunks
    [incoming] and then closes: the last [receive_bytes] raises
    [WebSocketDisconnect], whose handler unregisters the connection. *)
Definition websocket_live_transcription (websocket : WebSocket)
    (incoming : list (list Byte.byte)) : Py App unit :=
  on_net (connect websocket) ;;;
  receive_loop websocket incoming ;;;
  on_net (on_manager (disconnect websocket)).

(** [websocket_live_transcription] for a client that sends the chunks
    [incoming], after which [receive_bytes] raises: [WebSocketDisconnect]
    when [ending] is [ClientDisconnect], another exception otherwise. The
    clause for the latter evaluates [websocket_manager.disconnect(websocket)],
    which returns [None], and then awaits that [None]. *)
Definition websocket_live_transcription_until (websocket : WebSocket)
    (incoming : list (list Byte.byte)) (ending : session_end) : Py App unit :=
  on_net (connect websocket) ;;;
  receive_loop websocket incoming ;;;
  match ending with
  | ClientDisconnect => on_net (on_manager (disconnect websocket))
  | ReceiveError _ =>
      on_net (on_manager (disconnect websocket)) ;;; py_raise await_none_error
  end.

End Endpoints.

(** * Definitions used by the statements *)

(** ** Registries and transports *)

(** How often a connection is listed in [active_connections]. *)
Definition occurrences (websocket : WebSocket) (l : list WebSocket) : nat :=
  length (filter (λ y, y = websocket) l).

(** A transport on which every [accept] and every [send_text] succeeds. *)
Definition healthy_transport {Msg : Type} : Transport Msg :=
  mkTransport (λ _, None) (λ _, None) [].

(** The registry after [connect] was called twice on connection [7]. *)
Definition twice_registered : WebSocketManager :=
  ((connect 7 ;;; connect 7) (@healthy_transport unit, manager_init)).2.2.

(** ** The registry invariant *)

(** No connection is listed twice, and the listed connections are the keys
    of [connection_info]. *)
Definition consistent (self : WebSocketManager) : Prop :=
  NoDup (active_connections self) ∧
  ∀ websocket, websocket ∈ active_connections self ↔
               is_Some (connection_info self !! websocket).

(** ** Sending *)

(** The transport after more [send_text] calls. *)
Definition log_events {Msg} (t : Transport Msg) (events : list (wire_event Msg)) : Transport Msg :=
  mkTransport (accept_error t) (severed t) (wire t ++ events).

(** What one [send_text] call leaves on the wire. *)
Definition attempt {Msg} (t : Transport Msg) (message : Msg) (connection : WebSocket)
    : wire_event Msg :=
  match severed t connection with
  | Some _ => Failed connection message
  | None => Delivered connection message
  end.

(** ** Results of the speech service *)

(** The dicts a backend returns: the error dict of an [except] clause or of
    an explicit failure return, and the three success dicts. *)
Inductive backend_result : Dict → Prop :=
| result_error (message : string) :
    backend_result
      {[ "text" := VStr ""; "confidence" := VFloat float_0_0; "error" := VStr message ]}
| result_local (text lang : string) :
    backend_result
      {[ "text" := VStr text; "confidence" := VFloat float_0_85; "language" := VStr lang ]}
| result_azure (text : string) :
    backend_result
      {[ "text" := VStr text; "confidence" := VFloat float_0_9; "language" := VStr "en-GB" ]}
| result_openai (text lang : string) (duration : pyval) :
    backend_result
      {[ "text" := VStr text; "confidence" := VFloat float_0_9;
         "language" := VStr lang; "duration" := duration ]}.

(** The two dicts the Local backend returns. *)
Inductive local_result : Dict → Prop :=
| local_error (message : string) :
    local_result
      {[ "text" := VStr ""; "confidence" := VFloat float_0_0; "error" := VStr message ]}
| local_success (text lang : string) :
    local_result
      {[ "text" := VStr (strip text); "confidence" := VFloat float_0_85;
         "language" := VStr lang ]}.

Ltac py_unfold :=
  unfold try_except, py_bind, py_lift, py_get, py_ret, py_raise, py_modify in *.

Ltac py_case :=
  match goal with
  | |- context [match ?x with _ => _ end] =>
      lazymatch x with
      | context [match _ with _ => _ end] => fail
      | _ => destruct x eqn:?
      end
  end.

Ltac py_step :=
  cbv beta iota zeta delta
    [try_except py_bind py_lift py_get py_ret py_raise py_modify fst snd].

Ltac py_run := py_step; repeat (py_case; py_step).

(** Picks the constructor of [backend_result] by the keys of the dict. *)
Ltac backend_result_shape :=
  lazymatch goal with
  | |- backend_result (error_result ?e) => exact (result_error (exc_str e))
  | |- backend_result {[ "text" := _; "confidence" := _; "error" := _ ]} =>
      exact (result_error _)
  | |- backend_result {[ "text" := _; "confidence" := VFloat float_0_85; "language" := _ ]} =>
      exact (result_local _ _)
  | |- backend_result {[ "text" := _; "confidence" := VFloat float_0_9; "language" := _ ]} =>
      exact (result_azure _)
  | |- backend_result {[ "text" := _; "confidence" := _; "language" := _; "duration" := _ ]} =>
      exact (result_openai _ _ _)
  end.

(** ** Example environments *)

Definition no_files : pyval → PyResult (list Byte.byte) :=
  λ _, Raise (Exc "No such file or directory").

Definition temp_file : list Byte.byte → PyResult string :=
  λ _, Return "/tmp/tmp0001.wav".

(** A whisper library whose model hears [text] in every file. *)
Definition whisper_says (text lang : string) : WhisperModule :=
  mkWhisper (λ _, Return (mkWhisperModel (λ _, Return (mkWhisperOutput text lang)))).

(** An OpenAI client that refuses to work without an API key. *)
Definition openai_key_checked : OpenAIModule :=
  mkOpenAI (λ key _,
    if bool_decide (key = "") then Raise (Exc "Incorrect API key provided")
    else Return (mkTranscript "hello from the cloud" (Some "english") None)).

(** A pydub library that decodes every chunk to the segment [seg]. *)
Definition pydub_decodes (seg : Segment) : PydubModule :=
  mkPydub (λ _ _, Return seg).

(** Some raw PCM bytes, and the first bytes of a WAV file. *)
Definition a_chunk : list Byte.byte := [Byte.x01; Byte.x00; Byte.xff; Byte.x7f].
Definition wav_bytes : list Byte.byte := [Byte.x52; Byte.x49; Byte.x46; Byte.x46].

(** 300 ms at -50 dBFS, and 600 ms at -20 dBFS. *)
Definition short_quiet_segment : Segment :=
  mkSegment 300 (Level (Q2Qc (QArith_base.Qmake (-50) 1))) (Return wav_bytes).
Definition audible_segment : Segment :=
  mkSegment 600 (Level (Q2Qc (QArith_base.Qmake (-20) 1))) (Return wav_bytes).

(** No optional import succeeded. *)
Definition bare_env : Modules :=
  mkModules None None None None no_files temp_file 0.

(** [openai] and [whisper] are installed; pydub decodes [seg]. *)
Definition cloud_env (seg : Segment) : Modules :=
  mkModules (Some openai_key_checked) (Some (whisper_says " hello " "en")) None
            (Some (pydub_decodes seg)) no_files temp_file 0.

(** [whisper] alone is installed; pydub decodes [seg]. *)
Definition local_env (seg : Segment) : Modules :=
  mkModules None (Some (whisper_says " hello " "en")) None
            (Some (pydub_decodes seg)) no_files temp_file 0.

(** A service as [__init__] leaves it without Azure credentials. *)
Definition service_with (engine key : string) : SpeechService :=
  mkService (mkSettings key (Some "") (Some "") engine "base" 16000) None None None.

(** The four fields the specification requires of every result. *)
Definition has_required_fields (r : Dict) : Prop :=
  is_Some (r !! "text") ∧ is_Some (r !! "confidence") ∧
  is_Some (r !! "language") ∧ is_Some (r !! "is_final").

(** The real-time path as the specification words it: a ready segment is
    routed through the backend the engine name selects. *)
Definition transcribe_realtime_routed (env : Modules) (wav : list Byte.byte)
    : Py SpeechService Dict :=
  let* result := transcribe env (VBytes wav) in
  let* n := py_lift (py_len (default (VStr "") (result !! "text"))) in
  py_ret (<["is_final" := VBool (bool_decide (0 < n))]> result).

(** The message the live endpoint sends for a chunk that is not ready. *)
Definition quiet_message : LiveMessage :=
  {| msg_type := "transcription"; msg_text := VStr "";
     msg_confidence := VFloat float_0_0; msg_is_final := VBool false;
     msg_language := "en-GB" |}.

(** The registry with connection [1] registered, on a healthy transport. *)
Definition one_client : @Net LiveMessage :=
  (connect 1 (healthy_transport, manager_init)).2.

(** What a [Py] computation returned, or the empty dict if it raised. *)
Definition returned {S} (x : PyResult Dict * S) : Dict :=
  match x.1 with Return r => r | Raise _ => ∅ end.

(** A transport on which connection [2] has been severed. *)
Definition second_severed {Msg : Type} : Transport Msg :=
  mkTransport (λ _, None)
    (λ websocket, if decide (websocket = 2) then Some (Exc "Cannot call send once closed") else None)
    [].

(** Connections [1], [2] and [3], registered in that order. *)
Definition three_registered : WebSocketManager :=
  run_ops [Connect 1 None; Connect 2 None; Connect 3 None] manager_init.

(** ** Sessions *)

(** The connection has metadata whose ["session_id"] is [session_id]. *)
Definition session_member (session_id : string) (self : WebSocketManager)
    (websocket : WebSocket) : bool :=
  from_option (in_session session_id) false (connection_info self !! websocket).

(** Connections [1], [2] and [3] registered, [1] and [2] in session ["s1"]. *)
Definition session_registry : WebSocketManager :=
  update_connection_info 1 {[ "session_id" := VStr "s1" ]}
    (update_connection_info 2 {[ "session_id" := VStr "s1" ]} three_registered).

(** The message the live endpoint builds from a result of
    [transcribe_realtime]. *)
Definition live_message (transcription : Dict) : LiveMessage :=
  {| msg_type := "transcription";
     msg_text := default (VStr "") (transcription !! "text");
     msg_confidence := default (VFloat float_0_0) (transcription !! "confidence");
     msg_is_final := default (VBool false) (transcription !! "is_final");
     msg_language := "en-GB" |}.

(** A pydub library that cannot decode anything, and an environment with
    it. *)
Definition pydub_fails : PydubModule :=
  mkPydub (λ _ _, Raise (Exc "data length must be a multiple of the frame width")).

Definition undecodable_env : Modules :=
  mkModules None (Some (whisper_says " hello " "en")) None (Some pydub_fails)
            no_files temp_file 0.

(** A transport on which [accept] fails. *)
Definition refusing_transport {Msg : Type} : Transport Msg :=
  mkTransport (λ _, Some (Exc "handshake failed")) (λ _, None) [].

(** Settings with both Azure attributes, and a JSON body with a path. *)
Definition azure_settings : Settings :=
  mkSettings "sk-test" (Some "azure-key") (Some "uksouth") "azure" "base" 16000.

Definition path_body : Dict := {[ "audio" := VStr "/srv/audio/clip.wav" ]}.

(** An Azure SDK that recognises "hello" in everything, and an environment
    where it is the only speech library. *)
Definition azure_sdk : SpeechSDKModule :=
  mkSpeechSDK (λ _, Return tt) (λ _ _, Return (mkRecognition RecognizedSpeech "hello")).

Definition azure_env : Modules :=
  mkModules None None (Some azure_sdk) None no_files temp_file 0.

(** ** The [try] blocks of the backends *)

(** The dict of an explicit failure [return]; [error_result e] is
    [failure_result (exc_str e)]. *)
Definition failure_result (message : string) : Dict :=
  {[ "text" := VStr ""; "confidence" := VFloat float_0_0; "error" := VStr message ]}.

(** What the Azure backend reads the audio from. *)
Definition azure_source (audio_data : pyval) : AudioInput :=
  match audio_data with
  | VBytes b => PushStream b
  | _ => FromFile audio_data
  end.

(** The statements inside the [try:] of [_transcribe_openai], without its
    [except] clause. *)
Definition openai_try (env : Modules) (audio_data : pyval) : Py SpeechService Dict :=
  let* audio_file :=
    match audio_data with
    | VBytes b => py_ret {| file_name := VStr "audio.wav"; file_data := b |}
    | _ =>
        let* content := py_lift (open_rb env audio_data) in
        py_ret {| file_name := audio_data; file_data := content |}
    end in
  let* self := py_get in
  let* transcript :=
    match openai env with
    | Some lib => py_lift (client_transcribe lib (OPENAI_API_KEY (settings self)) audio_file)
    | None => py_raise (attribute_error "NoneType" "OpenAI")
    end in
  py_ret ({[ "text" := VStr (t_text transcript);
             "confidence" := VFloat float_0_9;
             "language" := VStr (default "en" (t_language transcript));
             "duration" := from_option VFloat (VInt 0) (t_duration transcript) ]} : Dict).

(** The statements inside the [try:] of [_transcribe_whisper_local]. *)
Definition whisper_try (env : Modules) (audio_data : pyval) : Py SpeechService Dict :=
  match whisper env with
  | None =>
      py_ret ({[ "text" := VStr ""; "confidence" := VFloat float_0_0;
                 "error" := VStr "Whisper not installed" ]} : Dict)
  | Some lib =>
      let* self := py_get in
      let* model :=
        match whisper_model self with
        | Some m => py_ret m
        | None =>
            let* m := py_lift (load_model lib (WHISPER_MODEL (settings self))) in
            py_modify (set_whisper_model m) ;;; py_ret m
        end in
      let* audio_path :=
        match audio_data with
        | VBytes b =>
            let* name := py_lift (tempfile_write env b) in py_ret (VStr name)
        | _ => py_ret audio_data
        end in
      let* result := py_lift (model_transcribe model audio_path) in
      py_ret ({[ "text" := VStr (strip (w_text result));
                 "confidence" := VFloat float_0_85;
                 "language" := VStr (w_language result) ]} : Dict)
  end.

(** The statements inside the [try:] of [_transcribe_azure]. *)
Definition azure_try (env : Modules) (audio_data : pyval) : Py SpeechService Dict :=
  match speechsdk env with
  | None =>
      py_ret ({[ "text" := VStr ""; "confidence" := VFloat float_0_0;
                 "error" := VStr "Azure Speech SDK not installed" ]} : Dict)
  | Some sdk =>
      let source :=
        match audio_data with
        | VBytes b => PushStream b
        | _ => FromFile audio_data
        end in
      py_lift (sdk_audio_config sdk source) ;;;
      let* self := py_get in
      let* speech_config :=
        match azure_speech_config self with
        | Some c => py_ret c
        | None => py_raise (attribute_error "SpeechService" "azure_speech_config")
        end in
      let* result := py_lift (sdk_recognize_once sdk speech_config source) in
      match reason result with
      | RecognizedSpeech =>
          py_ret ({[ "text" := VStr (recognized_text result);
                     "confidence" := VFloat float_0_9;
                     "language" := VStr "en-GB" ]} : Dict)
      | _ =>
          py_ret ({[ "text" := VStr ""; "confidence" := VFloat float_0_0;
                     "error" := VStr "No speech recognized" ]} : Dict)
      end
  end.

(** The [try] block of the backend that [transcribe] calls: the one its
    two guards select. *)
Definition backend_try (env : Modules) (audio_data : pyval) : Py SpeechService Dict :=
  λ self,
    if bool_decide (lower (SPEECH_RECOGNITION_ENGINE (settings self)) = "openai")
       && bool_decide (is_Some (openai env))
    then openai_try env audio_data self
    else if bool_decide (lower (SPEECH_RECOGNITION_ENGINE (settings self)) = "azure")
            && bool_decide (is_Some (speechsdk env))
    then azure_try env audio_data self
    else whisper_try env audio_data self.

(** A transport on which every [send_text] fails. *)
Definition all_severed {Msg : Type} : Transport Msg :=
  mkTransport (λ _, None) (λ _, Some (Exc "Cannot call send once closed")) [].

(** * Properties of the registry *)

Section RegistryFacts.

Lemma list_remove_first_notin x l :
  x ∉ l → list_remove_first x l = l.
Proof.
  induction l as [|y l IH]; [done|].
  intros Hx. apply not_elem_of_cons in Hx as [Hne Hl]. simpl.
  rewrite decide_False by done. by rewrite IH.
Qed.

Lemma list_remove_first_app x p l :
  x ∉ p → list_remove_first x (p ++ x :: l) = p ++ l.
Proof.
  induction p as [|y p IH]; simpl.
  - intros _. by rewrite decide_True.
  - intros Hx. apply not_elem_of_cons in Hx as [Hne Hp].
    rewrite decide_False by done. by rewrite IH.
Qed.

Lemma occurrences_remove_first x y l :
  occurrences x (list_remove_first y l) =
  if decide (x = y) then pred (occurrences x l) else occurrences x l.
Proof.
  unfold occurrences. induction l as [|z l IH]; simpl.
  - by case_decide.
  - rewrite filter_cons. destruct (decide (y = z)) as [->|Hyz].
    + destruct (decide (z = x)) as [->|Hzx].
      * by rewrite decide_True.
      * rewrite decide_False; [done|congruence].
    + rewrite filter_cons.
      destruct (decide (z = x)) as [Hzx|Hzx]; simpl; rewrite IH; [|done].
      repeat case_decide; congruence.
Qed.

Lemma occurrences_zero x l : occurrences x l = 0 ↔ x ∉ l.
Proof.
  unfold occurrences. induction l as [|z l IH]; simpl.
  - split; [intros _; apply not_elem_of_nil|done].
  - rewrite filter_cons, not_elem_of_cons. destruct (decide (z = x)) as [->|Hne]; simpl.
    + split; [done|]. intros [? _]. congruence.
    + rewrite IH. split; [intros ?; split; [congruence|done]|tauto].
Qed.

Lemma occurrences_NoDup l : NoDup l ↔ ∀ x, occurrences x l ≤ 1.
Proof.
  induction l as [|z l IH].
  - split; [intros _ x; unfold occurrences; simpl; lia|constructor].
  - rewrite NoDup_cons, IH. unfold occurrences. split.
    + intros [Hz Hl] x. rewrite filter_cons. destruct (decide (z = x)) as [->|Hne]; simpl.
      * apply occurrences_zero in Hz. unfold occurrences in Hz. lia.
      * apply Hl.
    + intros H. split.
      * apply occurrences_zero. specialize (H z). rewrite filter_cons in H.
        rewrite decide_True in H by done. simpl in H. unfold occurrences. lia.
      * intros x. specialize (H x). rewrite filter_cons in H.
        destruct (decide (z = x)); simpl in H; lia.
Qed.

(** A connection that [disconnect] found in the list is listed once less
    afterwards and has no metadata left. *)
Lemma disconnect_registered websocket self :
  websocket ∈ active_connections self →
  occurrences websocket (active_connections (disconnect websocket self)) =
    pred (occurrences websocket (active_connections self)) ∧
  connection_info (disconnect websocket self) !! websocket = None.
Proof.
  intros Hin. unfold disconnect. rewrite decide_True by done. simpl. split.
  - rewrite occurrences_remove_first. by rewrite decide_True.
  - case_decide as Hs; [apply lookup_delete_eq|].
    by apply eq_None_not_Some.
Qed.

Lemma disconnect_unregistered websocket self :
  websocket ∉ active_connections self → disconnect websocket self = self.
Proof. intros Hn. unfold disconnect. by rewrite decide_False. Qed.

End RegistryFacts.

(** ** Registering and unregistering *)

Section RegistryClaims.
Context {Msg : Type}.
Implicit Types (t : Transport Msg) (self : WebSocketManager) (websocket : WebSocket).

Lemma connect_accepted t self websocket :
  accept_error t websocket = None →
  connect websocket (t, self) =
    (Return tt,
     (t, {| active_connections := active_connections self ++ [websocket];
            connection_info := <[websocket := new_connection_info]> (connection_info self) |})).
Proof.
  intros Hacc. unfold connect, py_bind, ws_accept, on_manager, py_modify. simpl.
  by rewrite Hacc.
Qed.

Lemma connect_refused t self websocket e :
  accept_error t websocket = Some e →
  connect websocket (t, self) = (Raise e, (t, self)).
Proof.
  intros Hacc. unfold connect, py_bind, ws_accept. simpl. by rewrite Hacc.
Qed.

(** C8, as the code has it: [connect] does not look for the connection
    before appending it. When [accept()] succeeds on both calls, the
    connection is listed twice more than before, [connection_info] is what
    one call leaves, and the registry differs from the registry after one
    call. *)
Theorem connect_twice_registers_twice t self websocket :
  accept_error t websocket = None →
  ∃ once twice,
    connect websocket (t, self) = (Return tt, (t, once)) ∧
    connect websocket (t, once) = (Return tt, (t, twice)) ∧
    active_connections twice = active_connections self ++ [websocket; websocket] ∧
    occurrences websocket (active_connections twice) =
      S (occurrences websocket (active_connections once)) ∧
    connection_info twice = connection_info once ∧
    twice ≠ once.
Proof.
  intros Hacc. eexists _, _.
  split; [by apply connect_accepted|].
  split; [by apply connect_accepted|]. simpl.
  split; [by rewrite <- app_assoc|].
  split.
  - unfold occurrences. rewrite (filter_app _ (_ ++ _) [websocket]).
    rewrite length_app. rewrite filter_cons, decide_True by done. simpl. lia.
  - split; [by rewrite insert_insert_eq|].
    intros Heq. apply (f_equal active_connections) in Heq. simpl in Heq.
    apply (f_equal length) in Heq. rewrite !length_app in Heq. simpl in Heq. lia.
Qed.

(** C9, as the code has it: for a handle listed at most once in
    [active_connections], a second [disconnect] changes nothing. *)
Theorem disconnect_twice self websocket :
  occurrences websocket (active_connections self) ≤ 1 →
  disconnect websocket (disconnect websocket self) = disconnect websocket self.
Proof.
  intros Hocc. destruct (decide (websocket ∈ active_connections self)) as [Hin|Hout].
  - apply disconnect_unregistered. apply occurrences_zero.
    destruct (disconnect_registered websocket self Hin) as [-> _]. lia.
  - rewrite (disconnect_unregistered websocket self Hout).
    by apply disconnect_unregistered.
Qed.

End RegistryClaims.

(** C8 as stated fails: on a transport that accepts, two calls of
    [connect] on connection [7] leave it listed twice, one call once. *)
Lemma connect_not_idempotent :
  (connect 7 ;;; connect 7) (@healthy_transport unit, manager_init)
    ≠ connect 7 (@healthy_transport unit, manager_init) ∧
  occurrences 7 (active_connections twice_registered) = 2.
Proof.
  split; [|reflexivity]. intros Heq.
  apply (f_equal (λ r, length (active_connections r.2.2))) in Heq.
  vm_compute in Heq. discriminate.
Qed.

Lemma connect_twice_registers_twice_witness :
  ∃ once twice,
    connect 7 (@healthy_transport unit, manager_init) = (Return tt, (healthy_transport, once)) ∧
    connect 7 (@healthy_transport unit, once) = (Return tt, (healthy_transport, twice)) ∧
    active_connections twice = active_connections manager_init ++ [7; 7] ∧
    occurrences 7 (active_connections twice) = S (occurrences 7 (active_connections once)) ∧
    connection_info twice = connection_info once ∧
    twice ≠ once.
Proof. apply (connect_twice_registers_twice healthy_transport manager_init 7). reflexivity. Defined.

(** C9 as stated fails on a registry that lists a connection twice: the
    first [disconnect] leaves one entry, the second removes it. *)
Lemma disconnect_not_idempotent :
  disconnect 7 (disconnect 7 twice_registered) ≠ disconnect 7 twice_registered.
Proof.
  intros Heq. apply (f_equal (λ m, length (active_connections m))) in Heq.
  vm_compute in Heq. discriminate.
Qed.

Lemma disconnect_twice_witness :
  occurrences 7 (active_connections ((connect 7 (@healthy_transport unit, manager_init)).2.2)) ≤ 1 ∧
  disconnect 7 (disconnect 7 ((connect 7 (@healthy_transport unit, manager_init)).2.2)) =
    disconnect 7 ((connect 7 (@healthy_transport unit, manager_init)).2.2).
Proof.
  split; [vm_compute; lia|].
  apply (disconnect_twice ((connect 7 (@healthy_transport unit, manager_init)).2.2) 7).
  vm_compute. lia.
Defined.

(** ** The invariant of the registry *)

Lemma elem_of_list_remove_first x y l :
  x ≠ y → x ∈ list_remove_first y l ↔ x ∈ l.
Proof.
  intros Hne. induction l as [|z l IH]; simpl; [done|].
  destruct (decide (y = z)) as [->|Hyz].
  - rewrite elem_of_cons. split; [by right|]. by intros [?|?].
  - rewrite !elem_of_cons, IH. done.
Qed.

Lemma consistent_init : consistent manager_init.
Proof.
  split; [constructor|]. intros w. simpl. rewrite lookup_empty.
  split; [by intros ?%elem_of_nil|by intros ?%is_Some_None].
Qed.

Lemma consistent_disconnect websocket self :
  consistent self → consistent (disconnect websocket self).
Proof.
  intros [Hnd Hdom]. unfold disconnect.
  destruct (decide (websocket ∈ active_connections self)) as [Hin|]; [|done].
  assert (Hocc : ∀ x, occurrences x (list_remove_first websocket (active_connections self)) ≤ 1).
  { intros x. rewrite occurrences_remove_first.
    pose proof (proj1 (occurrences_NoDup _) Hnd x). case_decide; lia. }
  split; simpl.
  - by apply occurrences_NoDup.
  - intros w. rewrite decide_True by by apply Hdom.
    destruct (decide (w = websocket)) as [->|Hne].
    + rewrite lookup_delete_eq. split; [|by intros ?%is_Some_None].
      intros Hw. apply occurrences_zero in Hw; [done|].
      specialize (Hocc websocket). rewrite occurrences_remove_first in Hocc |- *.
      rewrite decide_True in Hocc |- * by done.
      pose proof (proj1 (occurrences_NoDup _) Hnd websocket). lia.
    + rewrite lookup_delete_ne by done. rewrite elem_of_list_remove_first by done.
      apply Hdom.
Qed.

Lemma consistent_connect {Msg} (t : Transport Msg) websocket self :
  websocket ∉ active_connections self →
  consistent self → consistent (connect websocket (t, self)).2.2.
Proof.
  intros Hnew [Hnd Hdom].
  destruct (accept_error t websocket) as [e|] eqn:Hacc.
  - rewrite (connect_refused _ _ _ e Hacc). by split.
  - rewrite (connect_accepted _ _ _ Hacc). split; simpl.
    + apply NoDup_app. split; [done|]. split; [|apply NoDup_singleton].
      intros x Hx ->%list_elem_of_singleton. done.
    + intros w. rewrite elem_of_app, list_elem_of_singleton, lookup_insert_is_Some.
      rewrite Hdom. destruct (decide (websocket = w)) as [->|Hne].
      * split; [by left|by right].
      * split; [intros [?|?]; [by right|congruence]|intros [?|[_ ?]]; [congruence|by left]].
Qed.

Lemma consistent_run ops : ∀ self,
  consistent self → no_reconnect self ops = true → consistent (run_ops ops self).
Proof.
  induction ops as [|o ops IH]; intros self Hc Hok; [done|].
  simpl in Hok. apply andb_true_iff in Hok as [Ho Hrest].
  simpl. apply IH; [|done].
  destruct o as [w r|w]; simpl.
  - apply consistent_connect; [|done]. by apply bool_decide_eq_true in Ho.
  - by apply consistent_disconnect.
Qed.

(** C10: from the empty registry, if [connect] is never called on a
    connection that is registered at that moment, then after any sequence
    of [connect] and [disconnect] calls the set of listed connections is
    the key set of [connection_info] and [get_connection_count] is the size
    of that set. *)
Theorem registry_invariant (ops : list registry_op) :
  no_reconnect manager_init ops = true →
  list_to_set (active_connections (run_ops ops manager_init))
    =@{gset nat} dom (connection_info (run_ops ops manager_init)) ∧
  get_connection_count (run_ops ops manager_init)
    = size (dom (connection_info (run_ops ops manager_init))).
Proof.
  intros Hok.
  destruct (consistent_run ops manager_init consistent_init Hok) as [Hnd Hdom].
  assert (Hset : list_to_set (active_connections (run_ops ops manager_init))
                 =@{gset nat} dom (connection_info (run_ops ops manager_init))).
  { apply set_eq. intros w. rewrite elem_of_list_to_set, elem_of_dom. apply Hdom. }
  split; [done|].
  rewrite <- Hset. unfold get_connection_count.
  symmetry. by apply size_list_to_set.
Qed.

Lemma registry_invariant_witness :
  no_reconnect manager_init
    [Connect 1 None; Connect 2 None; Disconnect 1; Connect 1 None;
     Connect 3 (Some (Exc "refused"))] = true ∧
  list_to_set (active_connections
     (run_ops [Connect 1 None; Connect 2 None; Disconnect 1; Connect 1 None;
               Connect 3 (Some (Exc "refused"))] manager_init))
    =@{gset nat} dom (connection_info
     (run_ops [Connect 1 None; Connect 2 None; Disconnect 1; Connect 1 None;
               Connect 3 (Some (Exc "refused"))] manager_init)) ∧
  get_connection_count
    (run_ops [Connect 1 None; Connect 2 None; Disconnect 1; Connect 1 None;
              Connect 3 (Some (Exc "refused"))] manager_init)
    = size (dom (connection_info
         (run_ops [Connect 1 None; Connect 2 None; Disconnect 1; Connect 1 None;
                   Connect 3 (Some (Exc "refused"))] manager_init))).
Proof.
  split; [reflexivity|].
  apply (registry_invariant
           [Connect 1 None; Connect 2 None; Disconnect 1; Connect 1 None;
            Connect 3 (Some (Exc "refused"))]).
  reflexivity.
Defined.

(** ** Sending and broadcasting *)

Section SendClaims.
Context {Msg : Type}.
Implicit Types (t : Transport Msg) (self : WebSocketManager) (message : Msg).

Lemma log_events_nil t : log_events t [] = t.
Proof. destruct t. unfold log_events. simpl. by rewrite app_nil_r. Qed.

Lemma log_events_app t a b : log_events (log_events t a) b = log_events t (a ++ b).
Proof. unfold log_events. simpl. by rewrite app_assoc. Qed.

Lemma ws_send_text_spec t self message connection :
  ws_send_text connection message (t, self) =
    (match severed t connection with Some e => Raise e | None => Return tt end,
     (log_events t [attempt t message connection], self)).
Proof.
  unfold ws_send_text, attempt, log_events. simpl.
  by destruct (severed t connection).
Qed.

(** C7, as the code has it: when [send_text] fails on a handle, [send_personal_message]
    returns normally; the only trace on the wire is the failed attempt;
    the registry is the one [disconnect] leaves. A handle that was
    registered is listed once less and has no metadata; one that was
    listed at most once is not listed any more. *)
Theorem send_personal_message_failure t self message websocket e :
  severed t websocket = Some e →
  send_personal_message message websocket (t, self) =
    (Return tt, (log_events t [Failed websocket message], disconnect websocket self)) ∧
  (websocket ∈ active_connections self →
     occurrences websocket (active_connections (disconnect websocket self)) =
       pred (occurrences websocket (active_connections self)) ∧
     connection_info (disconnect websocket self) !! websocket = None) ∧
  (occurrences websocket (active_connections self) ≤ 1 →
     websocket ∉ active_connections (disconnect websocket self)).
Proof.
  intros Hsev. split_and!.
  - unfold send_personal_message, try_except. rewrite ws_send_text_spec.
    unfold attempt. by rewrite Hsev.
  - apply disconnect_registered.
  - intros Hocc. apply occurrences_zero.
    destruct (decide (websocket ∈ active_connections self)) as [Hin|Hout].
    + destruct (disconnect_registered websocket self Hin) as [-> _]. lia.
    + rewrite disconnect_unregistered by done. by apply occurrences_zero.
Qed.

Lemma send_personal_message_delivered t self message websocket :
  severed t websocket = None →
  send_personal_message message websocket (t, self) =
    (Return tt, (log_events t [Delivered websocket message], self)).
Proof.
  intros Hsev. unfold send_personal_message, try_except. rewrite ws_send_text_spec.
  unfold attempt. by rewrite Hsev.
Qed.

(** The first loop of [broadcast] calls [send_text] on every connection in
    turn, collects the failing ones and leaves the registry alone. *)
Lemma broadcast_loop_spec message connections : ∀ t self acc,
  broadcast_loop message connections acc (t, self) =
    (Return (acc ++ filter (λ c, is_Some (severed t c)) connections),
     (log_events t (map (attempt t message) connections), self)).
Proof.
  induction connections as [|c rest IH]; intros t self acc; simpl.
  - unfold py_ret. by rewrite app_nil_r, log_events_nil.
  - unfold py_bind, try_except. rewrite ws_send_text_spec.
    rewrite filter_cons. unfold py_ret at 1 2.
    destruct (severed t c) as [e|] eqn:Hsev; simpl.
    + rewrite IH. simpl. rewrite log_events_app, <- app_assoc. reflexivity.
    + rewrite IH. simpl. rewrite log_events_app. reflexivity.
Qed.

Lemma cleanup_loop_spec failed : ∀ t self,
  cleanup_loop failed (t, self) =
    (Return tt, (t, foldl (λ m c, disconnect c m) self failed)).
Proof.
  induction failed as [|c rest IH]; intros t self; [done|].
  simpl. unfold py_bind, on_manager, py_modify. simpl. by rewrite IH.
Qed.

Lemma disconnect_first_listed x kept l info :
  x ∉ kept →
  disconnect x {| active_connections := kept ++ x :: l; connection_info := info |} =
    {| active_connections := kept ++ l;
       connection_info := if decide (is_Some (info !! x)) then delete x info else info |}.
Proof.
  intros Hx. unfold disconnect. simpl.
  rewrite decide_True by (apply elem_of_app; right; apply elem_of_cons; by left).
  by rewrite list_remove_first_app.
Qed.

(** Unregistering every failed connection of a pass over the list
    [kept ++ l], where nothing in [kept] failed. *)
Lemma cleanup_filter (failing : WebSocket → Prop) `{∀ c, Decision (failing c)} l :
  ∀ kept info,
    (∀ c, c ∈ kept → ¬ failing c) →
    let self' := foldl (λ m c, disconnect c m)
                   {| active_connections := kept ++ l; connection_info := info |}
                   (filter failing l) in
    active_connections self' = kept ++ filter (λ c, ¬ failing c) l ∧
    ∀ c, connection_info self' !! c =
         if decide (c ∈ filter failing l) then None else info !! c.
Proof.
  induction l as [|x l IH]; intros kept info Hkept; simpl.
  - by split.
  - rewrite !filter_cons. destruct (decide (failing x)) as [Hx|Hx].
    + rewrite decide_False by tauto. simpl.
      assert (Hnot : x ∉ kept) by (intros Hin; by apply (Hkept x)).
      rewrite disconnect_first_listed by done.
      destruct (IH kept
                  (if decide (is_Some (info !! x)) then delete x info else info) Hkept)
        as [Hact Hinfo].
      split; [done|]. intros c. rewrite Hinfo.
      destruct (decide (c = x)) as [->|Hne].
      * rewrite (decide_True (P := x ∈ x :: _)) by (apply elem_of_cons; by left).
        destruct (decide (x ∈ filter failing l)); [done|].
        destruct (decide (is_Some (info !! x))) as [Hs|Hs];
          [apply lookup_delete_eq | by apply eq_None_not_Some].
      * destruct (decide (c ∈ x :: filter failing l)) as [Hc1|Hc1];
          destruct (decide (c ∈ filter failing l)) as [Hc2|Hc2]; try done.
        -- exfalso. apply Hc2. by apply elem_of_cons in Hc1 as [?|?].
        -- exfalso. apply Hc1. apply elem_of_cons. by right.
        -- destruct (decide (is_Some (info !! x))); [by rewrite lookup_delete_ne|done].
    + rewrite decide_True by done.
      replace (kept ++ x :: l) with ((kept ++ [x]) ++ l) by (by rewrite <- app_assoc).
      destruct (IH (kept ++ [x]) info) as [Hact Hinfo].
      { intros c [Hc| ->%list_elem_of_singleton]%elem_of_app; [by apply Hkept|done]. }
      split; [by rewrite Hact, <- app_assoc|done].
Qed.


End SendClaims.

(** * Properties of the speech pipeline *)

Section SpeechFacts.
Context (env : Modules).
Implicit Types (self : SpeechService) (audio_data : pyval).

Lemma backend_result_fields (r : Dict) :
  backend_result r →
  (∃ text, r !! "text" = Some (VStr text)) ∧
  (∃ c, r !! "confidence" = Some (VFloat c)) ∧
  r !! "is_final" = None ∧
  (is_Some (r !! "error") →
     r !! "text" = Some (VStr "") ∧ r !! "confidence" = Some (VFloat float_0_0) ∧
     r !! "language" = None) ∧
  (r !! "error" = None → is_Some (r !! "language")).
Proof.
  intros [message|text lang|text|text lang duration].
  - split_and!; [by eexists|by eexists|done|done|]. intros He. by vm_compute in He.
  - split_and!; [by eexists|by eexists|done| |by eexists].
    intros [v He]. by vm_compute in He.
  - split_and!; [by eexists|by eexists|done| |by eexists].
    intros [v He]. by vm_compute in He.
  - split_and!; [by eexists|by eexists|done| |by eexists].
    intros [v He]. by vm_compute in He.
Qed.

End SpeechFacts.

Section BackendFacts.
Context (env : Modules).
Implicit Types (self : SpeechService) (audio_data : pyval).

Lemma transcribe_openai_result audio_data self :
  ∃ r, _transcribe_openai env audio_data self = (Return r, self) ∧ backend_result r.
Proof.
  unfold _transcribe_openai. py_run;
    eexists; (split; [reflexivity|]); backend_result_shape.
Qed.

Lemma transcribe_azure_result audio_data self :
  ∃ r, _transcribe_azure env audio_data self = (Return r, self) ∧ backend_result r.
Proof.
  unfold _transcribe_azure. py_run;
    eexists; (split; [reflexivity|]); backend_result_shape.
Qed.

Lemma transcribe_whisper_local_result audio_data self :
  ∃ r self',
    _transcribe_whisper_local env audio_data self = (Return r, self') ∧
    backend_result r ∧ settings self' = settings self.
Proof.
  unfold _transcribe_whisper_local. py_run;
    eexists _, _; (split; [reflexivity|]); (split; [|reflexivity]);
    backend_result_shape.
Qed.

(** The dispatch of [transcribe]; its own [except] clause never runs,
    because every backend catches what it raises. *)
Lemma transcribe_dispatch audio_data self :
  transcribe env audio_data self =
    if bool_decide (lower (SPEECH_RECOGNITION_ENGINE (settings self)) = "openai")
       && bool_decide (is_Some (openai env))
    then _transcribe_openai env audio_data self
    else if bool_decide (lower (SPEECH_RECOGNITION_ENGINE (settings self)) = "azure")
            && bool_decide (is_Some (speechsdk env))
    then _transcribe_azure env audio_data self
    else _transcribe_whisper_local env audio_data self.
Proof.
  unfold transcribe, try_except, py_bind, py_get.
  destruct (bool_decide _ && bool_decide _).
  - by destruct (transcribe_openai_result audio_data self) as (r & -> & _).
  - destruct (bool_decide _ && bool_decide _).
    + by destruct (transcribe_azure_result audio_data self) as (r & -> & _).
    + by destruct (transcribe_whisper_local_result audio_data self) as (r & s & -> & _).
Qed.

Lemma transcribe_result audio_data self :
  ∃ r self',
    transcribe env audio_data self = (Return r, self') ∧
    backend_result r ∧ settings self' = settings self.
Proof.
  rewrite transcribe_dispatch.
  destruct (bool_decide _ && bool_decide _).
  - destruct (transcribe_openai_result audio_data self) as (r & -> & Hr). by eexists _, _.
  - destruct (bool_decide _ && bool_decide _).
    + destruct (transcribe_azure_result audio_data self) as (r & -> & Hr). by eexists _, _.
    + apply transcribe_whisper_local_result.
Qed.

(** Each backend is its [try] block under the same [except] clause. *)
Lemma backends_are_guarded_tries audio_data :
  _transcribe_openai env audio_data
    = try_except (openai_try env audio_data) (λ e, py_ret (error_result e)) ∧
  _transcribe_azure env audio_data
    = try_except (azure_try env audio_data) (λ e, py_ret (error_result e)) ∧
  _transcribe_whisper_local env audio_data
    = try_except (whisper_try env audio_data) (λ e, py_ret (error_result e)).
Proof. split_and!; reflexivity. Qed.

(** What [transcribe] makes of the outcome of the selected [try] block. *)
Lemma transcribe_of_try audio_data self :
  transcribe env audio_data self =
    match backend_try env audio_data self with
    | (Return r, self') => (Return r, self')
    | (Raise e, self') => (Return (error_result e), self')
    end.
Proof.
  rewrite transcribe_dispatch. unfold backend_try.
  destruct (backends_are_guarded_tries audio_data) as (-> & -> & ->).
  destruct (bool_decide _ && bool_decide _); [done|].
  by destruct (bool_decide _ && bool_decide _).
Qed.

(** C1, as the code has it: [transcribe] returns a dict for every input
    and never raises. The dict has a [str] under ["text"] and a [float]
    under ["confidence"]; it never has ["is_final"]; when it has
    ["error"], the text is empty, the confidence is [0.0] and there is no
    ["language"]; when it has no ["error"], it has ["language"].
    Whenever a statement inside the [try] of the selected backend raises
    [e], the result is the error dict: ["error"] is [str(e)], the text is
    empty and the confidence is [0.0]. What the [try] block returns is
    returned as it is, and its three explicit failure returns (whisper not
    installed, Azure SDK not installed, no speech recognized) are error
    dicts as well. *)
Theorem transcribe_total audio_data self :
  (∃ r self',
    transcribe env audio_data self = (Return r, self') ∧
    (∃ text, r !! "text" = Some (VStr text)) ∧
    (∃ c, r !! "confidence" = Some (VFloat c)) ∧
    r !! "is_final" = None ∧
    (is_Some (r !! "error") →
       r !! "text" = Some (VStr "") ∧ r !! "confidence" = Some (VFloat float_0_0) ∧
       r !! "language" = None) ∧
    (r !! "error" = None → is_Some (r !! "language"))) ∧
  (∀ e self', backend_try env audio_data self = (Raise e, self') →
     transcribe env audio_data self = (Return (error_result e), self') ∧
     error_result e !! "error" = Some (VStr (exc_str e)) ∧
     error_result e !! "text" = Some (VStr "") ∧
     error_result e !! "confidence" = Some (VFloat float_0_0)) ∧
  (∀ r self', backend_try env audio_data self = (Return r, self') →
     transcribe env audio_data self = (Return r, self')) ∧
  (whisper env = None →
     whisper_try env audio_data self
       = (Return (failure_result "Whisper not installed"), self)) ∧
  (speechsdk env = None →
     azure_try env audio_data self
       = (Return (failure_result "Azure Speech SDK not installed"), self)) ∧
  (∀ sdk config recognition,
     speechsdk env = Some sdk →
     sdk_audio_config sdk (azure_source audio_data) = Return tt →
     azure_speech_config self = Some config →
     sdk_recognize_once sdk config (azure_source audio_data) = Return recognition →
     reason recognition ≠ RecognizedSpeech →
     azure_try env audio_data self
       = (Return (failure_result "No speech recognized"), self)) ∧
  (∀ message,
     failure_result message !! "error" = Some (VStr message) ∧
     failure_result message !! "text" = Some (VStr "") ∧
     failure_result message !! "confidence" = Some (VFloat float_0_0)).
Proof.
  split_and!.
  - destruct (transcribe_result audio_data self) as (r & self' & Hrun & Hr & _).
    exists r, self'. split; [done|]. by apply backend_result_fields.
  - intros e self' Htry. rewrite transcribe_of_try, Htry. by split_and!.
  - intros r self' Htry. by rewrite transcribe_of_try, Htry.
  - intros Hw. unfold whisper_try. by rewrite Hw.
  - intros Ha. unfold azure_try. by rewrite Ha.
  - intros sdk config recognition Hsdk Hconf Hcfg Hrec Hreason.
    unfold azure_try. rewrite Hsdk. fold (azure_source audio_data). py_step.
    rewrite Hconf, Hcfg, Hrec. by destruct (reason recognition).
  - intros message. by split_and!.
Qed.

End BackendFacts.

(** C1 as stated fails: with whisper missing, the result of [transcribe]
    has neither ["language"] nor ["is_final"]. *)
Lemma transcribe_result_lacks_fields :
  ¬ ∃ r self',
      transcribe bare_env (VBytes a_chunk) (service_with "local" "") = (Return r, self') ∧
      has_required_fields r.
Proof.
  intros (r & self' & Hrun & _ & _ & [v Hlang] & _).
  change (transcribe bare_env (VBytes a_chunk) (service_with "local" ""))
    with (Return (A := Dict)
            {[ "text" := VStr ""; "confidence" := VFloat float_0_0;
               "error" := VStr "Whisper not installed" ]},
          service_with "local" "") in Hrun.
  injection Hrun as <- _. by vm_compute in Hlang.
Qed.

(** Even a successful transcription carries no ["is_final"]. *)
Lemma transcribe_success_lacks_is_final :
  returned (transcribe (local_env audible_segment) (VBytes a_chunk) (service_with "local" ""))
    !! "text" = Some (VStr "hello") ∧
  returned (transcribe (local_env audible_segment) (VBytes a_chunk) (service_with "local" ""))
    !! "is_final" = None.
Proof. split; reflexivity. Qed.

Section PipelineClaims.
Context (env : Modules).
Implicit Types (self : SpeechService) (audio_data : pyval).

(** C5, as the code has it: the engine name is lower-cased before it is
    compared. ["openai"] with the openai library imported selects the
    OpenAI backend and ["azure"] with the Azure SDK imported selects the
    Azure backend, whatever the credentials are; an engine whose library
    failed to import, and any other engine name, selects the Local
    backend. *)
Theorem backend_selection audio_data self :
  (lower (SPEECH_RECOGNITION_ENGINE (settings self)) = "openai" →
   is_Some (openai env) →
   transcribe env audio_data self = _transcribe_openai env audio_data self) ∧
  (lower (SPEECH_RECOGNITION_ENGINE (settings self)) = "azure" →
   is_Some (speechsdk env) →
   transcribe env audio_data self = _transcribe_azure env audio_data self) ∧
  ((lower (SPEECH_RECOGNITION_ENGINE (settings self)) = "openai" → openai env = None) →
   (lower (SPEECH_RECOGNITION_ENGINE (settings self)) = "azure" → speechsdk env = None) →
   transcribe env audio_data self = _transcribe_whisper_local env audio_data self).
Proof.
  rewrite transcribe_dispatch. split_and!.
  - intros He Hlib.
    by rewrite (bool_decide_eq_true_2 _ He), (bool_decide_eq_true_2 _ Hlib).
  - intros He Hlib. rewrite (bool_decide_eq_false_2 (_ = "openai")) by (by rewrite He).
    simpl. by rewrite (bool_decide_eq_true_2 _ He), (bool_decide_eq_true_2 _ Hlib).
  - intros Ho Ha.
    destruct (decide (lower (SPEECH_RECOGNITION_ENGINE (settings self)) = "openai")) as [He|He].
    + rewrite (bool_decide_eq_true_2 _ He), (Ho He). simpl.
      rewrite (bool_decide_eq_false_2 (_ = "azure")) by (by rewrite He). done.
    + rewrite (bool_decide_eq_false_2 _ He). simpl.
      destruct (decide (lower (SPEECH_RECOGNITION_ENGINE (settings self)) = "azure")) as [Hz|Hz].
      * rewrite (bool_decide_eq_true_2 _ Hz), (Ha Hz). done.
      * by rewrite (bool_decide_eq_false_2 _ Hz).
Qed.

Lemma transcribe_whisper_local_shape audio_data self :
  ∃ r self',
    _transcribe_whisper_local env audio_data self = (Return r, self') ∧
    local_result r.
Proof.
  unfold _transcribe_whisper_local. py_run;
    eexists _, _; (split; [reflexivity|]);
    lazymatch goal with
    | |- local_result (error_result ?e) => exact (local_error (exc_str e))
    | |- local_result {[ "text" := _; "confidence" := _; "error" := _ ]} =>
        exact (local_error _)
    | |- _ => exact (local_success _ _)
    end.
Qed.

(** C4, as the code has it: a chunk that decodes to at least 500 ms at no
    less than -40 dBFS and exports to WAV goes to the Local backend,
    whatever engine is configured. The result is the Local backend's dict
    with ["is_final"] added, true exactly when the text is not empty; a
    non-empty text comes with confidence [0.85]. *)
Theorem transcribe_realtime_ready pydub audio_chunk audio_segment audio_bytes self :
  AudioSegment env = Some pydub →
  from_raw pydub audio_chunk (AUDIO_SAMPLE_RATE (settings self)) = Return audio_segment →
  (500 ≤ seg_len audio_segment)%Z →
  level_lt (seg_dBFS audio_segment) silence_floor = false →
  seg_export_wav audio_segment = Return audio_bytes →
  ∃ result self' text,
    _transcribe_whisper_local env (VBytes audio_bytes) self = (Return result, self') ∧
    result !! "text" = Some (VStr text) ∧
    transcribe_realtime env audio_chunk self =
      (Return (<["is_final" := VBool (bool_decide (text ≠ ""))]> result), self') ∧
    (text ≠ "" →
     ∃ lang, result = {[ "text" := VStr text; "confidence" := VFloat float_0_85;
                         "language" := VStr lang ]}).
Proof.
  intros Hlib Hraw Hlen Hloud Hwav.
  destruct (transcribe_whisper_local_shape (VBytes audio_bytes) self)
    as (result & self' & Hrun & Hres).
  assert (∃ text, result !! "text" = Some (VStr text)) as [text Htext].
  { destruct Hres; by eexists. }
  exists result, self', text. split; [done|]. split; [done|]. split.
  - unfold transcribe_realtime. rewrite Hlib. py_unfold. rewrite Hraw.
    rewrite bool_decide_eq_false_2 by lia. rewrite Hloud, Hwav, Hrun, Htext.
    cbn [default from_option id py_len].
    rewrite (bool_decide_ext _ (text ≠ "")); [done|].
    destruct text; simpl; [split; [lia|done]|split; [done|lia]].
  - intros Hne. destruct Hres as [message|raw lang].
    + rewrite lookup_insert_eq in Htext. congruence.
    + exists lang. rewrite lookup_insert_eq in Htext. by injection Htext as ->.
Qed.

(** C3, as the code has it: for a chunk that decodes to less than 500 ms,
    or to a level below -40 dBFS, [transcribe_realtime] calls no backend
    and returns the placeholder dict; the live endpoint then sends one
    message for that chunk, with empty text, confidence [0.0] and
    [is_final] false. *)
Theorem transcribe_realtime_not_ready pydub audio_chunk audio_segment self
    (t : Transport LiveMessage) manager websocket :
  AudioSegment env = Some pydub →
  from_raw pydub audio_chunk (AUDIO_SAMPLE_RATE (settings self)) = Return audio_segment →
  (seg_len audio_segment < 500)%Z ∨ level_lt (seg_dBFS audio_segment) silence_floor = true →
  transcribe_realtime env audio_chunk self = (Return not_ready, self) ∧
  live_transcription_step env websocket audio_chunk (self, (t, manager)) =
    (Return tt, (self, (send_personal_message quiet_message websocket (t, manager)).2)) ∧
  (severed t websocket = None →
   live_transcription_step env websocket audio_chunk (self, (t, manager)) =
     (Return tt, (self, (log_events t [Delivered websocket quiet_message], manager)))).
Proof.
  intros Hlib Hraw Hquiet.
  assert (Hrt : transcribe_realtime env audio_chunk self = (Return not_ready, self)).
  { unfold transcribe_realtime. rewrite Hlib. py_unfold. rewrite Hraw.
    destruct Hquiet as [Hshort|Hlow].
    - by rewrite bool_decide_eq_true_2.
    - case_bool_decide; [done|]. by rewrite Hlow. }
  assert (Hstep : live_transcription_step env websocket audio_chunk (self, (t, manager)) =
    (Return tt, (self, (send_personal_message quiet_message websocket (t, manager)).2))).
  { unfold live_transcription_step, py_bind, on_speech, on_net. simpl. rewrite Hrt. simpl.
    change (default (VStr "") (not_ready !! "text")) with (VStr "").
    change (default (VFloat float_0_0) (not_ready !! "confidence")) with (VFloat float_0_0).
    change (default (VBool false) (not_ready !! "is_final")) with (VBool false).
    fold quiet_message.
    destruct (severed t websocket) as [e|] eqn:Hsev.
    - unfold send_personal_message, try_except. rewrite !ws_send_text_spec.
      by rewrite Hsev.
    - by rewrite (send_personal_message_delivered t manager quiet_message websocket Hsev). }
  split; [done|]. split; [done|].
  intros Hopen. rewrite Hstep.
  by rewrite (send_personal_message_delivered t manager quiet_message websocket Hopen).
Qed.

(** A request whose ["audio"] entry is missing or falsy never reaches the
    speech service, and is answered with status 500. *)
Lemma transcribe_audio_no_audio (audio_data : Dict) self :
  truthy (default VNone (audio_data !! "audio")) = false →
  transcribe_audio env audio_data self =
    (inl (HTTPException 500 "Transcription failed"), self).
Proof. intros Hfalsy. unfold transcribe_audio. by rewrite Hfalsy. Qed.

(** C2, what the code does on the body [{}]: the
    [HTTPException(400, "No audio data provided")] raised inside the [try]
    block is caught by the [except Exception] clause of the same block, and
    the client gets status 500 with detail "Transcription failed", not the
    400. The speech service is left as it was. *)
Theorem transcribe_audio_empty_body self :
  transcribe_audio env ∅ self = (inl (HTTPException 500 "Transcription failed"), self) ∧
  transcribe_audio env ∅ self ≠ (inl (HTTPException 400 "No audio data provided"), self).
Proof.
  rewrite transcribe_audio_no_audio by done. split; [done|]. intros [=].
Qed.

End PipelineClaims.

(** * The scenarios of the specification *)

(** The scenario of the specification: a broadcast to three connections
    of which the second is severed reaches the first and the third, and
    unregisters the second. *)
Lemma broadcast_three_second_severed :
  broadcast "hello" (second_severed, three_registered) =
    (Return tt,
     (log_events second_severed [Delivered 1 "hello"; Failed 2 "hello"; Delivered 3 "hello"],
      disconnect 2 three_registered)) ∧
  active_connections (disconnect 2 three_registered) = [1; 3] ∧
  connection_info (disconnect 2 three_registered) !! 2 = None.
Proof.
  split; [|split; reflexivity].
  unfold broadcast, py_bind, py_get. cbn [snd].
  rewrite broadcast_loop_spec. cbn [fst snd]. by rewrite cleanup_loop_spec.
Qed.

Lemma send_personal_message_failure_witness :
  send_personal_message "hello" 2 (second_severed, three_registered) =
    (Return tt, (log_events second_severed [Failed 2 "hello"], disconnect 2 three_registered)) ∧
  (2 ∈ active_connections three_registered →
     occurrences 2 (active_connections (disconnect 2 three_registered)) =
       pred (occurrences 2 (active_connections three_registered)) ∧
     connection_info (disconnect 2 three_registered) !! 2 = None) ∧
  (occurrences 2 (active_connections three_registered) ≤ 1 →
     2 ∉ active_connections (disconnect 2 three_registered)).
Proof.
  apply (send_personal_message_failure second_severed three_registered "hello" 2
           (Exc "Cannot call send once closed")).
  reflexivity.
Defined.

(** C7 as stated fails on a registry that lists the handle twice: after
    the failed send and the [disconnect] it triggers, connection [7] is still
    listed. *)
Lemma failed_send_keeps_duplicate :
  (send_personal_message "hello" 7 (all_severed, twice_registered)).1 = Return tt ∧
  active_connections (send_personal_message "hello" 7 (all_severed, twice_registered)).2.2
    = [7] ∧
  ¬ (7 ∉ active_connections
           (send_personal_message "hello" 7 (all_severed, twice_registered)).2.2).
Proof.
  split_and!; [reflexivity|reflexivity|].
  intros Hout. apply Hout. vm_compute. apply elem_of_cons. by left.
Qed.

(** C3 as stated fails: for a chunk of 300 ms at -50 dBFS the client on
    connection [1] is sent a message. *)
Lemma quiet_chunk_still_answered :
  wire (live_transcription_step (local_env short_quiet_segment) 1 a_chunk
          (service_with "local" "", one_client)).2.2.1
    = [Delivered 1 quiet_message] ∧
  wire (live_transcription_step (local_env short_quiet_segment) 1 a_chunk
          (service_with "local" "", one_client)).2.2.1
    ≠ wire one_client.1.
Proof. split; [reflexivity|]. intros Heq. vm_compute in Heq. discriminate. Qed.

Lemma transcribe_realtime_not_ready_witness :
  transcribe_realtime (local_env short_quiet_segment) a_chunk (service_with "local" "") =
    (Return not_ready, service_with "local" "") ∧
  live_transcription_step (local_env short_quiet_segment) 1 a_chunk
      (service_with "local" "", (healthy_transport, three_registered)) =
    (Return tt,
     (service_with "local" "",
      (send_personal_message quiet_message 1 (healthy_transport, three_registered)).2)) ∧
  (severed (@healthy_transport LiveMessage) 1 = None →
   live_transcription_step (local_env short_quiet_segment) 1 a_chunk
       (service_with "local" "", (healthy_transport, three_registered)) =
     (Return tt,
      (service_with "local" "",
       (log_events healthy_transport [Delivered 1 quiet_message], three_registered)))).
Proof.
  apply (transcribe_realtime_not_ready (local_env short_quiet_segment)
           (pydub_decodes short_quiet_segment) a_chunk short_quiet_segment
           (service_with "local" "") healthy_transport three_registered 1).
  - reflexivity.
  - reflexivity.
  - left. reflexivity.
Defined.

(** C4 as stated fails. With the engine set to ["openai"] and a working
    OpenAI client, a ready chunk is still transcribed by the Local backend:
    the result differs from the routed one. And with the Local backend
    configured, an audible chunk in which whisper hears only blanks gives an
    empty text and [is_final] false. *)
Lemma realtime_ignores_engine :
  returned (transcribe_realtime (cloud_env audible_segment) a_chunk (service_with "openai" "sk-test"))
    !! "text" = Some (VStr "hello") ∧
  returned (transcribe_realtime_routed (cloud_env audible_segment) wav_bytes (service_with "openai" "sk-test"))
    !! "text" = Some (VStr "hello from the cloud") ∧
  returned (transcribe_realtime (cloud_env audible_segment) a_chunk (service_with "openai" "sk-test"))
    ≠ returned (transcribe_realtime_routed (cloud_env audible_segment) wav_bytes
                  (service_with "openai" "sk-test")) ∧
  returned (transcribe_realtime
              (mkModules None (Some (whisper_says "  " "en")) None
                 (Some (pydub_decodes audible_segment)) no_files temp_file 0)
              a_chunk (service_with "local" ""))
    !! "is_final" = Some (VBool false).
Proof.
  split_and!; try reflexivity.
  intros Heq. apply (f_equal (λ r : Dict, r !! "text")) in Heq.
  vm_compute in Heq. discriminate.
Qed.

Lemma transcribe_realtime_ready_witness :
  ∃ result self' text,
    _transcribe_whisper_local (local_env audible_segment) (VBytes wav_bytes) (service_with "local" "")
      = (Return result, self') ∧
    result !! "text" = Some (VStr text) ∧
    transcribe_realtime (local_env audible_segment) a_chunk (service_with "local" "") =
      (Return (<["is_final" := VBool (bool_decide (text ≠ ""))]> result), self') ∧
    (text ≠ "" →
     ∃ lang, result = {[ "text" := VStr text; "confidence" := VFloat float_0_85;
                         "language" := VStr lang ]}).
Proof.
  apply (transcribe_realtime_ready (local_env audible_segment)
           (pydub_decodes audible_segment) a_chunk audible_segment wav_bytes (service_with "local" "")).
  - reflexivity.
  - reflexivity.
  - vm_compute. discriminate.
  - reflexivity.
  - reflexivity.
Defined.

(** C5 as stated fails: with the engine set to ["OpenAI"], the openai
    library installed and no API key, [transcribe] returns the error of the
    OpenAI backend, not the result of the Local backend. *)
Lemma no_fallback_without_credentials :
  OPENAI_API_KEY (settings (service_with "OpenAI" "")) = "" ∧
  returned (transcribe (cloud_env audible_segment) (VBytes a_chunk) (service_with "OpenAI" ""))
    !! "error" = Some (VStr "Incorrect API key provided") ∧
  returned (_transcribe_whisper_local (cloud_env audible_segment) (VBytes a_chunk)
              (service_with "OpenAI" ""))
    !! "text" = Some (VStr "hello") ∧
  returned (transcribe (cloud_env audible_segment) (VBytes a_chunk) (service_with "OpenAI" ""))
    ≠ returned (_transcribe_whisper_local (cloud_env audible_segment) (VBytes a_chunk)
                  (service_with "OpenAI" "")).
Proof.
  split_and!; try reflexivity.
  intros Heq. apply (f_equal (λ r : Dict, r !! "error")) in Heq.
  vm_compute in Heq. discriminate.
Qed.

(** ** Errors of a backend become data *)

Section BackendErrors.
Context (env : Modules).
Implicit Types (self : SpeechService).

(** An exception of the OpenAI client comes back as the error dict. *)
Lemma openai_error_is_data lib (b : list Byte.byte) self e :
  openai env = Some lib →
  client_transcribe lib (OPENAI_API_KEY (settings self))
    {| file_name := VStr "audio.wav"; file_data := b |} = Raise e →
  _transcribe_openai env (VBytes b) self = (Return (error_result e), self).
Proof.
  intros Hlib Hraise. unfold _transcribe_openai. py_step. by rewrite Hlib, Hraise.
Qed.

(** So does an exception of the whisper model. *)
Lemma whisper_error_is_data lib model (path : string) self e :
  whisper env = Some lib →
  whisper_model self = Some model →
  model_transcribe model (VStr path) = Raise e →
  _transcribe_whisper_local env (VStr path) self = (Return (error_result e), self).
Proof.
  intros Hlib Hmodel Hraise. unfold _transcribe_whisper_local.
  rewrite Hlib. py_step. by rewrite Hmodel, Hraise.
Qed.

(** Azure without credentials: [azure_speech_config] was never assigned,
    and the [AttributeError] comes back as the error dict. *)
Lemma azure_without_credentials_is_data sdk (b : list Byte.byte) self :
  speechsdk env = Some sdk →
  sdk_audio_config sdk (PushStream b) = Return tt →
  azure_speech_config self = None →
  _transcribe_azure env (VBytes b) self =
    (Return (error_result (attribute_error "SpeechService" "azure_speech_config")), self).
Proof.
  intros Hlib Hconf Hnone. unfold _transcribe_azure.
  rewrite Hlib. py_step. by rewrite Hconf, Hnone.
Qed.

End BackendErrors.

(** The engine name is compared in lower case; [strip] drops the blanks
    around the text whisper returns. *)
Lemma lower_examples :
  lower "OpenAI" = "openai" ∧ lower "AZURE" = "azure" ∧ lower "Local" = "local".
Proof. split_and!; reflexivity. Qed.

Lemma strip_examples :
  strip " hello " = "hello" ∧ strip "  " = "" ∧ strip "a b" = "a b".
Proof. split_and!; reflexivity. Qed.

(** [service_with] is the object [__init__] builds when the Azure
    settings are empty and no OpenAI key is set. *)
Lemma service_with_is_initial (seg : Segment) engine :
  SpeechService_init (cloud_env seg) (mkSettings "" (Some "") (Some "") engine "base" 16000)
    = (Return (service_with engine ""), service_with engine "").
Proof. reflexivity. Qed.

(** A whole session of the live endpoint: the client connects, sends one
    chunk of 300 ms at -50 dBFS and closes. One message went out, and the
    registry is empty again. *)
Lemma live_session_example :
  websocket_live_transcription (local_env short_quiet_segment) 1 [a_chunk]
    (service_with "local" "", (healthy_transport, manager_init)) =
  (Return tt,
   (service_with "local" "",
    (log_events healthy_transport [Delivered 1 quiet_message], manager_init))).
Proof. reflexivity. Qed.

(** The scenario of the specification for a ready chunk: 600 ms at
    -20 dBFS, whisper installed and hearing " hello ". *)
Lemma realtime_local_scenario :
  returned (transcribe_realtime (local_env audible_segment) a_chunk (service_with "local" ""))
    = {[ "text" := VStr "hello"; "confidence" := VFloat float_0_85;
         "language" := VStr "en"; "is_final" := VBool true ]}.
Proof. vm_compute. reflexivity. Qed.

(** * Further properties of the registry *)

Section RegistryMore.
Context {Msg : Type}.
Implicit Types (t : Transport Msg) (self : WebSocketManager) (websocket : WebSocket).

(** X1: [connect] followed by [disconnect] on a connection that was not
    registered gives back the registry as it was. *)
Theorem connect_disconnect_round_trip t self websocket :
  accept_error t websocket = None →
  websocket ∉ active_connections self →
  connection_info self !! websocket = None →
  ∃ registered,
    connect websocket (t, self) = (Return tt, (t, registered)) ∧
    get_connection_count registered = S (get_connection_count self) ∧
    disconnect websocket registered = self.
Proof.
  intros Hacc Hnew Hinfo. eexists. split; [by apply connect_accepted|].
  split; [unfold get_connection_count; simpl; rewrite length_app; simpl; lia|].
  unfold disconnect. simpl.
  rewrite decide_True by (apply elem_of_app; right; by apply list_elem_of_singleton).
  rewrite list_remove_first_app by done.
  rewrite decide_True by (by rewrite lookup_insert_eq).
  rewrite delete_insert_id by done. rewrite app_nil_r. by destruct self.
Qed.

(** X2: [update_connection_info] never adds or removes a connection. For
    a connection that has metadata, every key of the update reads as the
    update has it and every other key as before; the metadata of the other
    connections is untouched; for a connection without metadata nothing
    changes at all. *)
Theorem update_connection_info_lookup websocket (info : gmap string pyval) self :
  active_connections (update_connection_info websocket info self) = active_connections self ∧
  dom (connection_info (update_connection_info websocket info self))
    = dom (connection_info self) ∧
  (∀ w, w ≠ websocket →
     connection_info (update_connection_info websocket info self) !! w
       = connection_info self !! w) ∧
  (∀ old, connection_info self !! websocket = Some old →
     ∃ new, connection_info (update_connection_info websocket info self) !! websocket
              = Some new ∧
            ∀ k, new !! k = match info !! k with Some v => Some v | None => old !! k end) ∧
  (connection_info self !! websocket = None →
     update_connection_info websocket info self = self).
Proof.
  unfold update_connection_info.
  destruct (connection_info self !! websocket) as [old|] eqn:Hold; simpl.
  - split_and!; [done| | | |done].
    + apply dom_insert_lookup_L. by rewrite Hold.
    + intros w Hne. by rewrite lookup_insert_ne.
    + intros ? [= <-]. eexists. split; [apply lookup_insert_eq|].
      intros k. rewrite lookup_union. by destruct (info !! k), (old !! k).
  - by split_and!.
Qed.

End RegistryMore.

Lemma connect_disconnect_round_trip_witness :
  ∃ registered,
    connect 4 (@healthy_transport unit, three_registered)
      = (Return tt, (healthy_transport, registered)) ∧
    get_connection_count registered = S (get_connection_count three_registered) ∧
    disconnect 4 registered = three_registered.
Proof.
  apply (connect_disconnect_round_trip healthy_transport three_registered 4).
  - reflexivity.
  - vm_compute. intros Hin. repeat (apply elem_of_cons in Hin as [Hin|Hin]; [discriminate|]).
    by apply elem_of_nil in Hin.
  - reflexivity.
Defined.

(** ** Broadcasting again, and sending to a session *)

Section SessionFacts.
Context {Msg : Type}.
Implicit Types (t : Transport Msg) (self : WebSocketManager) (message : Msg).

Lemma send_personal_message_spec t self message websocket :
  send_personal_message message websocket (t, self) =
    (Return tt,
     (log_events t [attempt t message websocket],
      match severed t websocket with
      | Some _ => disconnect websocket self
      | None => self
      end)).
Proof.
  unfold send_personal_message, try_except. rewrite ws_send_text_spec.
  by destruct (severed t websocket).
Qed.

Lemma broadcast_spec t self message :
  broadcast message (t, self) =
    (Return tt,
     (log_events t (map (attempt t message) (active_connections self)),
      foldl (λ m c, disconnect c m) self
        (filter (λ c, is_Some (severed t c)) (active_connections self)))).
Proof.
  unfold broadcast, py_bind, py_get. cbn [snd].
  rewrite broadcast_loop_spec. cbn [fst snd app]. by rewrite cleanup_loop_spec.
Qed.

Lemma broadcast_survivors t self message :
  active_connections (broadcast message (t, self)).2.2 =
    filter (λ c, ¬ is_Some (severed t c)) (active_connections self).
Proof.
  rewrite broadcast_spec. cbn [snd]. destruct self as [active info].
  destruct (cleanup_filter (λ c, is_Some (severed t c)) active [] info) as [Hact _].
  { intros c Hc. by apply elem_of_nil in Hc. }
  exact Hact.
Qed.

Lemma consistent_foldl_disconnect failed : ∀ self,
  consistent self → consistent (foldl (λ m c, disconnect c m) self failed).
Proof.
  induction failed as [|c rest IH]; intros self Hc; [done|].
  simpl. apply IH. by apply consistent_disconnect.
Qed.

Lemma filter_length_complement (P : WebSocket → Prop) `{∀ c, Decision (P c)} l :
  length (filter (λ c, ¬ P c) l) + length (filter P l) = length l.
Proof.
  induction l as [|x l IH]; [done|].
  rewrite !filter_cons. destruct (decide (P x)).
  - rewrite decide_False by tauto. simpl. lia.
  - rewrite decide_True by done. simpl. lia.
Qed.

Lemma filter_complement_nil (P : WebSocket → Prop) `{∀ c, Decision (P c)} l :
  filter P (filter (λ c, ¬ P c) l) = [].
Proof.
  induction l as [|x l IH]; [done|].
  rewrite filter_cons. destruct (decide (¬ P x)) as [Hx|Hx]; [|done].
  by rewrite filter_cons, decide_False.
Qed.

Lemma attempt_survivors t t' message l :
  (∀ c, severed t' c = severed t c) →
  map (attempt t' message) (filter (λ c, ¬ is_Some (severed t c)) l) =
  map (λ c, Delivered c message) (filter (λ c, ¬ is_Some (severed t c)) l).
Proof.
  intros Hsame. induction l as [|x l IH]; [done|].
  rewrite filter_cons. destruct (decide (¬ is_Some (severed t x))) as [Hx|Hx]; [|done].
  simpl. rewrite IH. f_equal. unfold attempt. rewrite Hsame.
  destruct (severed t x); [|done]. exfalso. by apply Hx.
Qed.

(** X4: a broadcast leaves only connections on which [send_text]
    succeeded, so a second broadcast over the same transport reaches every
    listed connection and unregisters none. *)
Theorem broadcast_twice t self message message' :
  ∃ t1 self1,
    broadcast message (t, self) = (Return tt, (t1, self1)) ∧
    broadcast message' (t1, self1) =
      (Return tt,
       (log_events t1 (map (λ c, Delivered c message') (active_connections self1)), self1)).
Proof.
  eexists _, _. split; [apply broadcast_spec|].
  rewrite broadcast_spec.
  pose proof (broadcast_survivors t self message) as Hact.
  rewrite broadcast_spec in Hact. cbn [snd] in Hact. rewrite Hact.
  cbn [severed log_events].
  rewrite filter_complement_nil. simpl. do 3 f_equal.
  by apply attempt_survivors.
Qed.

(** X5: after a broadcast, [get_connection_count] has dropped by the
    number of listed connections on which [send_text] failed. *)
Theorem broadcast_connection_count t self message :
  get_connection_count (broadcast message (t, self)).2.2
    + length (filter (λ c, is_Some (severed t c)) (active_connections self))
  = get_connection_count self.
Proof.
  unfold get_connection_count. rewrite broadcast_survivors.
  apply filter_length_complement.
Qed.

Lemma send_to_session_loop_nil session_id message used t self :
  send_to_session_loop session_id message used [] (t, self) =
    if bool_decide (size (connection_info self) ≠ used)
    then (Raise dict_changed_size, (t, self))
    else (Return tt, (t, self)).
Proof. unfold send_to_session_loop, py_bind, py_get. simpl. by case_bool_decide. Qed.

Lemma send_to_session_loop_cons session_id message used websocket rest t self :
  send_to_session_loop session_id message used (websocket :: rest) (t, self) =
    if bool_decide (size (connection_info self) ≠ used)
    then (Raise dict_changed_size, (t, self))
    else if session_member session_id self websocket
    then (send_personal_message message websocket ;;;
          send_to_session_loop session_id message used rest) (t, self)
    else send_to_session_loop session_id message used rest (t, self).
Proof.
  unfold session_member. cbn [send_to_session_loop].
  unfold py_bind at 1. unfold py_get. cbn [snd].
  case_bool_decide; [done|].
  destruct (connection_info self !! websocket) as [info|]; [|done]. simpl.
  by destruct (in_session session_id info).
Qed.

(** The loop over a stretch of keys on which no send fails. *)
Lemma send_to_session_loop_healthy session_id message self pre rest : ∀ t,
  (∀ w, w ∈ pre → session_member session_id self w = true → severed t w = None) →
  send_to_session_loop session_id message (size (connection_info self)) (pre ++ rest) (t, self) =
  send_to_session_loop session_id message (size (connection_info self)) rest
    (log_events t
       (map (λ w, Delivered w message)
          (filter (λ w, session_member session_id self w = true) pre)), self).
Proof.
  induction pre as [|w pre IH]; intros t Hpre.
  - simpl. by rewrite log_events_nil.
  - rewrite <- app_comm_cons, send_to_session_loop_cons.
    rewrite bool_decide_eq_false_2 by (by intros []).
    rewrite filter_cons.
    destruct (session_member session_id self w) eqn:Hmem.
    + rewrite decide_True by done. unfold py_bind.
      rewrite send_personal_message_spec. unfold attempt.
      rewrite (Hpre w) by (done || apply elem_of_cons; by left).
      rewrite IH.
      * by rewrite log_events_app.
      * intros w' Hw' Hm. cbn [severed log_events]. apply Hpre; [|done].
        apply elem_of_cons. by right.
    + rewrite decide_False by done. apply IH.
      intros w' Hw' Hm. apply Hpre; [|done]. apply elem_of_cons. by right.
Qed.

(** X6: when [send_text] succeeds on every connection of the session,
    [send_to_session] returns normally, sends the message once to each
    connection whose ["session_id"] is the given one, in the order of
    iteration, sends nothing to the others and leaves the registry as it
    was. *)
Theorem send_to_session_delivers keys session_id message t self :
  (∀ w, w ∈ keys → session_member session_id self w = true → severed t w = None) →
  send_to_session keys session_id message (t, self) =
    (Return tt,
     (log_events t
        (map (λ w, Delivered w message)
           (filter (λ w, session_member session_id self w = true) keys)), self)).
Proof.
  intros Hkeys. unfold send_to_session, py_bind, py_get. cbn [snd].
  rewrite <- (app_nil_r keys) at 1.
  rewrite send_to_session_loop_healthy by done.
  rewrite send_to_session_loop_nil. by rewrite bool_decide_eq_false_2 by (by intros []).
Qed.

(** X7: when [send_text] fails on a listed connection of the session,
    [send_personal_message] unregisters it, which deletes its entry from the
    dict being iterated; the next step of the iteration raises
    [RuntimeError], which leaves [send_to_session]. The connections later
    in the order get nothing. *)
Theorem send_to_session_failure pre websocket post session_id message t self e :
  (∀ w, w ∈ pre → session_member session_id self w = true → severed t w = None) →
  session_member session_id self websocket = true →
  severed t websocket = Some e →
  websocket ∈ active_connections self →
  send_to_session (pre ++ websocket :: post) session_id message (t, self) =
    (Raise dict_changed_size,
     (log_events t
        (map (λ w, Delivered w message)
           (filter (λ w, session_member session_id self w = true) pre)
         ++ [Failed websocket message]),
      disconnect websocket self)).
Proof.
  intros Hpre Hmem Hsev Hin. unfold send_to_session, py_bind, py_get. cbn [snd].
  rewrite send_to_session_loop_healthy by done.
  rewrite send_to_session_loop_cons.
  rewrite bool_decide_eq_false_2 by (by intros []).
  rewrite Hmem. unfold py_bind. rewrite send_personal_message_spec.
  cbn [severed log_events]. rewrite Hsev, log_events_app.
  unfold attempt at 1. cbn [severed log_events]. rewrite Hsev.
  assert (Hsize : size (connection_info (disconnect websocket self))
                  ≠ size (connection_info self)).
  { unfold session_member in Hmem.
    destruct (connection_info self !! websocket) as [info|] eqn:Hinfo; [|done].
    unfold disconnect. rewrite decide_True by done. simpl.
    rewrite decide_True by (by rewrite Hinfo).
    rewrite map_size_delete_Some by (by rewrite Hinfo).
    assert (size (connection_info self) ≠ 0)
      by (apply (map_size_ne_0_lookup_2 _ websocket); by rewrite Hinfo).
    lia. }
  destruct post as [|w post].
  - rewrite send_to_session_loop_nil. by rewrite bool_decide_eq_true_2.
  - rewrite send_to_session_loop_cons. by rewrite bool_decide_eq_true_2.
Qed.

Lemma send_to_session_loop_consistent session_id message used keys : ∀ t self,
  consistent self →
  consistent (send_to_session_loop session_id message used keys (t, self)).2.2.
Proof.
  induction keys as [|w keys IH]; intros t self Hc.
  - rewrite send_to_session_loop_nil. by case_bool_decide.
  - rewrite send_to_session_loop_cons. case_bool_decide; [done|].
    destruct (session_member session_id self w); [|by apply IH].
    unfold py_bind. rewrite send_personal_message_spec. apply IH.
    destruct (severed t w); [by apply consistent_disconnect|done].
Qed.

(** X3: the invariant of the registry (no connection listed twice, the
    listed connections are the keys of [connection_info]) is kept by every
    other method that touches the registry: [send_personal_message],
    [broadcast], [send_to_session] and [update_connection_info]. *)
Theorem registry_methods_keep_invariant t self message websocket keys session_id
    (info : gmap string pyval) :
  consistent self →
  consistent (send_personal_message message websocket (t, self)).2.2 ∧
  consistent (broadcast message (t, self)).2.2 ∧
  consistent (send_to_session keys session_id message (t, self)).2.2 ∧
  consistent (update_connection_info websocket info self).
Proof.
  intros Hc. split_and!.
  - rewrite send_personal_message_spec. cbn [snd].
    destruct (severed t websocket); [by apply consistent_disconnect|done].
  - rewrite broadcast_spec. cbn [snd]. by apply consistent_foldl_disconnect.
  - unfold send_to_session, py_bind, py_get. cbn [snd fst].
    by apply send_to_session_loop_consistent.
  - destruct Hc as [Hnd Hdom]. unfold update_connection_info.
    destruct (connection_info self !! websocket) as [old|] eqn:Hold; [|by split].
    split; [done|]. simpl. intros w. rewrite Hdom, lookup_insert_is_Some.
    destruct (decide (websocket = w)) as [<-|Hne].
    + rewrite Hold. split; [by left|by eexists].
    + split; [by right|]. by intros [?|[_ ?]].
Qed.

End SessionFacts.

Lemma send_to_session_delivers_witness :
  send_to_session [1; 2; 3] "s1" "hello" (healthy_transport, session_registry) =
    (Return tt,
     (log_events healthy_transport
        (map (λ w, Delivered w "hello")
           (filter (λ w, session_member "s1" session_registry w = true) [1; 2; 3])),
      session_registry)).
Proof.
  apply (send_to_session_delivers [1; 2; 3] "s1" "hello" healthy_transport session_registry).
  intros w _ _. reflexivity.
Defined.

Lemma send_to_session_failure_witness :
  send_to_session ([1] ++ 2 :: [3]) "s1" "hello" (second_severed, session_registry) =
    (Raise dict_changed_size,
     (log_events second_severed
        (map (λ w, Delivered w "hello")
           (filter (λ w, session_member "s1" session_registry w = true) [1])
         ++ [Failed 2 "hello"]),
      disconnect 2 session_registry)).
Proof.
  apply (send_to_session_failure [1] 2 [3] "s1" "hello" second_severed session_registry
           (Exc "Cannot call send once closed")).
  - intros w Hw _. apply list_elem_of_singleton in Hw as ->. reflexivity.
  - reflexivity.
  - reflexivity.
  - vm_compute. apply elem_of_cons. right. apply elem_of_cons. by left.
Defined.

Lemma registry_methods_keep_invariant_witness :
  consistent session_registry ∧
  consistent (send_personal_message "hello" 2 (second_severed, session_registry)).2.2 ∧
  consistent (broadcast "hello" (second_severed, session_registry)).2.2 ∧
  consistent (send_to_session [1; 2; 3] "s1" "hello" (second_severed, session_registry)).2.2 ∧
  consistent (update_connection_info 2 {[ "client_type" := VStr "mobile" ]} session_registry).
Proof.
  assert (Hc : consistent session_registry).
  { split.
    - vm_compute. repeat constructor; intros Hin;
        repeat (apply elem_of_cons in Hin as [Hin|Hin]; [discriminate|]);
        by apply elem_of_nil in Hin.
    - intros w. rewrite <- elem_of_dom.
      replace (dom (connection_info session_registry))
        with (list_to_set (active_connections session_registry) : gset nat)
        by reflexivity.
      by rewrite elem_of_list_to_set. }
  split; [exact Hc|].
  apply (registry_methods_keep_invariant second_severed session_registry "hello" 2
           [1; 2; 3] "s1" {[ "client_type" := VStr "mobile" ]}).
  exact Hc.
Defined.

(** On that input each method does its work: the send to [2] fails and
    unregisters it, the broadcast drops it, the session send stops at it, and
    the update reaches its metadata. *)
Lemma registry_methods_scenario :
  active_connections (send_personal_message "hello" 2 (second_severed, session_registry)).2.2
    = [1; 3] ∧
  active_connections (broadcast "hello" (second_severed, session_registry)).2.2 = [1; 3] ∧
  (send_to_session [1; 2; 3] "s1" "hello" (second_severed, session_registry)).1
    = Raise dict_changed_size ∧
  active_connections
    (send_to_session [1; 2; 3] "s1" "hello" (second_severed, session_registry)).2.2 = [1; 3] ∧
  (connection_info
     (update_connection_info 2 {[ "client_type" := VStr "mobile" ]} session_registry) !! 2)
    ≫= (.!! "client_type") = Some (VStr "mobile").
Proof. split_and!; reflexivity. Qed.

(** The session scenario on concrete inputs: [1] and [2] are in session
    ["s1"], [3] is not. *)
Lemma send_to_session_scenario :
  (send_to_session [1; 2; 3] "s1" "hello" (healthy_transport, session_registry)).1 = Return tt ∧
  wire (send_to_session [1; 2; 3] "s1" "hello" (healthy_transport, session_registry)).2.1
    = [Delivered 1 "hello"; Delivered 2 "hello"] ∧
  (send_to_session [1; 2; 3] "s1" "hello" (second_severed, session_registry)).1
    = Raise dict_changed_size ∧
  wire (send_to_session [1; 2; 3] "s1" "hello" (second_severed, session_registry)).2.1
    = [Delivered 1 "hello"; Failed 2 "hello"].
Proof. split_and!; reflexivity. Qed.

(** * Further properties of the speech service *)

Section SpeechMore.
Context (env : Modules).
Implicit Types (self : SpeechService) (audio_data : pyval).

(** What the Local backend does to the service: nothing, or it caches the
    model it loaded where there was none. *)
Lemma transcribe_whisper_local_frame audio_data self :
  (_transcribe_whisper_local env audio_data self).2 = self ∨
  ∃ m, whisper_model self = None ∧
       (_transcribe_whisper_local env audio_data self).2 = set_whisper_model m self.
Proof.
  unfold _transcribe_whisper_local. py_run;
    first [by left | right; eexists; by split].
Qed.

(** X8: the whisper model is loaded on first use and kept. With a cached
    model the Local backend leaves the service as it is and does not depend
    on [whisper.load_model]; when loading raises, the error comes back as
    data and the model stays unloaded; when loading succeeds, the model is
    cached whatever happens to the rest of the call. *)
Theorem whisper_model_cached lib audio_data self :
  whisper env = Some lib →
  (∀ m, whisper_model self = Some m →
     (∃ r, _transcribe_whisper_local env audio_data self = (Return r, self)) ∧
     ∀ env', is_Some (whisper env') → tempfile_write env' = tempfile_write env →
       _transcribe_whisper_local env' audio_data self
         = _transcribe_whisper_local env audio_data self) ∧
  (∀ e, whisper_model self = None →
     load_model lib (WHISPER_MODEL (settings self)) = Raise e →
     _transcribe_whisper_local env audio_data self = (Return (error_result e), self)) ∧
  (∀ m, whisper_model self = None →
     load_model lib (WHISPER_MODEL (settings self)) = Return m →
     whisper_model (_transcribe_whisper_local env audio_data self).2 = Some m).
Proof.
  intros Hlib. split_and!.
  - intros m Hm. split.
    + unfold _transcribe_whisper_local. rewrite Hlib. py_step. rewrite Hm.
      py_run; by eexists.
    + intros env' [lib' Hlib'] Htmp. unfold _transcribe_whisper_local.
      rewrite Hlib, Hlib'. py_step. by rewrite Hm, Htmp.
  - intros e Hnone Hload. unfold _transcribe_whisper_local.
    rewrite Hlib. py_step. by rewrite Hnone, Hload.
  - intros m Hnone Hload. unfold _transcribe_whisper_local.
    rewrite Hlib. py_step. rewrite Hnone, Hload. py_run; reflexivity.
Qed.

(** X9: the only thing [transcribe] and [transcribe_realtime] ever change
    in the service is to cache a whisper model where there was none:
    settings, credentials and a model already cached are never touched. *)
Theorem transcribe_only_caches_model audio_data (audio_chunk : list Byte.byte) self :
  ((transcribe env audio_data self).2 = self ∨
   ∃ m, whisper_model self = None ∧
        (transcribe env audio_data self).2 = set_whisper_model m self) ∧
  ((transcribe_realtime env audio_chunk self).2 = self ∨
   ∃ m, whisper_model self = None ∧
        (transcribe_realtime env audio_chunk self).2 = set_whisper_model m self).
Proof.
  assert (Ht : ∀ a, (transcribe env a self).2 = self ∨
            ∃ m, whisper_model self = None ∧
                 (transcribe env a self).2 = set_whisper_model m self).
  { intros a. rewrite transcribe_dispatch.
    destruct (bool_decide _ && bool_decide _).
    - left. by destruct (transcribe_openai_result env a self) as (r & -> & _).
    - destruct (bool_decide _ && bool_decide _).
      + left. by destruct (transcribe_azure_result env a self) as (r & -> & _).
      + apply transcribe_whisper_local_frame. }
  split; [apply Ht|].
  unfold transcribe_realtime.
  destruct (AudioSegment env) as [pydub|].
  - py_step.
    destruct (from_raw pydub audio_chunk (AUDIO_SAMPLE_RATE (settings self)))
      as [seg|e]; [|by left].
    destruct (bool_decide (seg_len seg < 500)%Z); [by left|].
    destruct (level_lt (seg_dBFS seg) silence_floor); [by left|].
    destruct (seg_export_wav seg) as [wav|e]; [|by left].
    destruct (transcribe_whisper_local_shape env (VBytes wav) self) as (r & s' & Hrun & Hr).
    pose proof (transcribe_whisper_local_frame (VBytes wav) self) as Hframe.
    rewrite Hrun in Hframe |- *. cbn [snd] in Hframe.
    destruct (py_len (default (VStr "") (r !! "text"))); exact Hframe.
  - unfold try_except.
    destruct (transcribe_result env (VBytes audio_chunk) self) as (r & s' & Hrun & _).
    specialize (Ht (VBytes audio_chunk)). rewrite Hrun in Ht |- *. exact Ht.
Qed.

(** X13: without [azure_speech_config] (the key or the region was empty
    when the service was built), the Azure backend never succeeds: every
    call returns an error dict with empty text and confidence [0.0], and
    leaves the service as it is. *)
Theorem azure_needs_config audio_data self :
  azure_speech_config self = None →
  ∃ message,
    _transcribe_azure env audio_data self =
      (Return {[ "text" := VStr ""; "confidence" := VFloat float_0_0;
                 "error" := VStr message ]}, self).
Proof.
  intros Hnone. unfold _transcribe_azure. py_step.
  destruct (speechsdk env) as [sdk|]; [|by eexists].
  rewrite Hnone.
  destruct (sdk_audio_config sdk _) as [[]|e]; by eexists.
Qed.

(** X22: when none of openai, the Azure SDK and whisper could be
    imported, [transcribe] answers every request, whatever the engine name
    and the audio, with the error "Whisper not installed", and leaves the
    service as it is. *)
Theorem transcribe_nothing_installed audio_data self :
  openai env = None →
  speechsdk env = None →
  whisper env = None →
  transcribe env audio_data self =
    (Return {[ "text" := VStr ""; "confidence" := VFloat float_0_0;
               "error" := VStr "Whisper not installed" ]}, self).
Proof.
  intros Ho Ha Hw. rewrite transcribe_dispatch, Ho, Ha.
  rewrite !(bool_decide_eq_false_2 (is_Some None)) by (by intros []).
  rewrite !andb_false_r.
  unfold _transcribe_whisper_local. by rewrite Hw.
Qed.

End SpeechMore.

(** ** The real-time path *)

Section RealtimeMore.
Context (env : Modules).
Implicit Types (self : SpeechService) (audio_chunk : list Byte.byte).

Lemma text_nonempty_length (text : string) :
  bool_decide (0 < String.length text) = bool_decide (text ≠ "").
Proof.
  apply bool_decide_ext. destruct text; simpl; [split; [lia|done]|split; [done|lia]].
Qed.

(** X10: with pydub installed, [transcribe_realtime] never raises, and its
    result always has a [str] under ["text"], a [float] under
    ["confidence"] and a [bool] under ["is_final"] that is true exactly when
    the text is not empty. A result with text has confidence [0.85] and no
    ["error"]. *)
Theorem transcribe_realtime_result pydub audio_chunk self :
  AudioSegment env = Some pydub →
  ∃ r self' text,
    transcribe_realtime env audio_chunk self = (Return r, self') ∧
    r !! "text" = Some (VStr text) ∧
    (∃ c, r !! "confidence" = Some (VFloat c)) ∧
    r !! "is_final" = Some (VBool (bool_decide (text ≠ ""))) ∧
    (text ≠ "" →
     r !! "confidence" = Some (VFloat float_0_85) ∧ r !! "error" = None).
Proof.
  intros Hlib. unfold transcribe_realtime. rewrite Hlib. py_step.
  assert (Hquiet : ∀ s : SpeechService, ∃ r self' text,
    (Return not_ready, s) = (Return r, self') ∧
    r !! "text" = Some (VStr text) ∧
    (∃ c, r !! "confidence" = Some (VFloat c)) ∧
    r !! "is_final" = Some (VBool (bool_decide (text ≠ ""))) ∧
    (text ≠ "" →
     r !! "confidence" = Some (VFloat float_0_85) ∧ r !! "error" = None)).
  { intros s. exists not_ready, s, "". split_and!; [done|done|by eexists|done|done]. }
  assert (Herr : ∀ (e : Exception) (s : SpeechService), ∃ r self' text,
    (Return (<["error" := VStr (exc_str e)]> not_ready), s) = (Return r, self') ∧
    r !! "text" = Some (VStr text) ∧
    (∃ c, r !! "confidence" = Some (VFloat c)) ∧
    r !! "is_final" = Some (VBool (bool_decide (text ≠ ""))) ∧
    (text ≠ "" →
     r !! "confidence" = Some (VFloat float_0_85) ∧ r !! "error" = None)).
  { intros e s. eexists _, s, "". split_and!; [done|done|by eexists|done|done]. }
  destruct (from_raw pydub audio_chunk (AUDIO_SAMPLE_RATE (settings self)))
    as [seg|e]; [|apply Herr].
  destruct (bool_decide (seg_len seg < 500)%Z); [apply Hquiet|].
  destruct (level_lt (seg_dBFS seg) silence_floor); [apply Hquiet|].
  destruct (seg_export_wav seg) as [wav|e]; [|apply Herr].
  destruct (transcribe_whisper_local_shape env (VBytes wav) self) as (r & s' & -> & Hr).
  destruct Hr as [message|raw lang].
  - eexists _, s', "". split_and!; [done|done|by eexists|done|done].
  - eexists _, s', (strip raw). cbn [default from_option id py_len].
    rewrite lookup_insert_eq. cbn [default from_option id py_len].
    split_and!; [done|done|by eexists| |done].
    rewrite lookup_insert_eq. by rewrite text_nonempty_length.
Qed.

(** X11: a chunk that pydub cannot decode, or a segment it cannot export,
    is answered like silence. [transcribe_realtime] returns the placeholder
    with the message of the exception under ["error"] and calls no backend;
    the live endpoint sends the same message as for a quiet chunk, so the
    error does not reach the client. *)
Theorem undecodable_chunk_looks_silent pydub audio_chunk self e
    (t : Transport LiveMessage) manager websocket :
  AudioSegment env = Some pydub →
  from_raw pydub audio_chunk (AUDIO_SAMPLE_RATE (settings self)) = Raise e ∨
  (∃ seg, from_raw pydub audio_chunk (AUDIO_SAMPLE_RATE (settings self)) = Return seg ∧
          (500 ≤ seg_len seg)%Z ∧ level_lt (seg_dBFS seg) silence_floor = false ∧
          seg_export_wav seg = Raise e) →
  transcribe_realtime env audio_chunk self =
    (Return (<["error" := VStr (exc_str e)]> not_ready), self) ∧
  live_transcription_step env websocket audio_chunk (self, (t, manager)) =
    (Return tt, (self, (send_personal_message quiet_message websocket (t, manager)).2)).
Proof.
  intros Hlib Hfail.
  assert (Hrt : transcribe_realtime env audio_chunk self =
                (Return (<["error" := VStr (exc_str e)]> not_ready), self)).
  { unfold transcribe_realtime. rewrite Hlib. py_step.
    destruct Hfail as [->|(seg & -> & Hlen & Hloud & Hwav)]; [done|].
    rewrite bool_decide_eq_false_2 by lia. by rewrite Hloud, Hwav. }
  split; [done|].
  unfold live_transcription_step, py_bind, on_speech, on_net. cbn [fst snd].
  rewrite Hrt. py_step.
  change (default (VStr "") (<["error" := VStr (exc_str e)]> not_ready !! "text"))
    with (VStr "").
  change (default (VFloat float_0_0)
            (<["error" := VStr (exc_str e)]> not_ready !! "confidence"))
    with (VFloat float_0_0).
  change (default (VBool false) (<["error" := VStr (exc_str e)]> not_ready !! "is_final"))
    with (VBool false).
  rewrite !send_personal_message_spec. reflexivity.
Qed.

(** X12: without pydub the real-time path is the one-shot path.
    [transcribe_realtime] returns what [transcribe] returns for the chunk,
    routed by the engine name; that result has no ["is_final"], so the live
    endpoint reports every result as not final, whatever its text. *)
Theorem realtime_without_pydub audio_chunk self (net : @Net LiveMessage) websocket :
  AudioSegment env = None →
  ∃ r self',
    transcribe env (VBytes audio_chunk) self = (Return r, self') ∧
    transcribe_realtime env audio_chunk self = (Return r, self') ∧
    r !! "is_final" = None ∧
    msg_is_final (live_message r) = VBool false ∧
    live_transcription_step env websocket audio_chunk (self, net) =
      (Return tt, (self', (send_personal_message (live_message r) websocket net).2)).
Proof.
  intros Hlib.
  destruct (transcribe_result env (VBytes audio_chunk) self) as (r & self' & Hrun & Hr & _).
  destruct (backend_result_fields r Hr) as (_ & _ & Hfinal & _).
  assert (Hrt : transcribe_realtime env audio_chunk self = (Return r, self')).
  { unfold transcribe_realtime, try_except. by rewrite Hlib, Hrun. }
  exists r, self'. split_and!; [done|done|done| |].
  - unfold live_message. simpl. by rewrite Hfinal.
  - unfold live_transcription_step, py_bind, on_speech, on_net. cbn [fst snd].
    rewrite Hrt. py_step. fold (live_message r). destruct net as [t manager].
    by rewrite !send_personal_message_spec.
Qed.

End RealtimeMore.

(** ** Building the service *)

Section InitMore.
Context (env : Modules).

(** X14: [SpeechService.__init__] raises exactly when the settings object
    has no [AZURE_SPEECH_KEY], or has a non-empty one and no
    [AZURE_SPEECH_REGION]; what it raises is the [AttributeError] of the
    missing attribute. [config.py] declares neither attribute, so with its
    settings the service cannot be built. *)
Theorem SpeechService_init_raises (s : Settings) :
  ((∃ e, (SpeechService_init env s).1 = Raise e) ↔
   AZURE_SPEECH_KEY s = None ∨
   (∃ k, AZURE_SPEECH_KEY s = Some k ∧ k ≠ "" ∧ AZURE_SPEECH_REGION s = None)) ∧
  (AZURE_SPEECH_KEY s = None →
   (SpeechService_init env s).1 = Raise (attribute_error "Settings" "AZURE_SPEECH_KEY")) ∧
  (SpeechService_init env default_settings).1
    = Raise (attribute_error "Settings" "AZURE_SPEECH_KEY").
Proof.
  assert (Hinit : (SpeechService_init env s).1 =
    match AZURE_SPEECH_KEY s with
    | None => Raise (attribute_error "Settings" "AZURE_SPEECH_KEY")
    | Some k =>
        if bool_decide (k = "") then
          Return (_init_openai env (mkService s None None None))
        else match AZURE_SPEECH_REGION s with
             | None => Raise (attribute_error "Settings" "AZURE_SPEECH_REGION")
             | Some r =>
                 Return
                   (if bool_decide (r = "") then _init_openai env (mkService s None None None)
                    else match speechsdk env with
                         | None => _init_openai env (mkService s None None None)
                         | Some _ =>
                             mkService s None
                               (Some (mkSpeechConfig k r "en-GB"))
                               (openai_api_key (_init_openai env (mkService s None None None)))
                         end)
             end
    end).
  { unfold SpeechService_init, _init_azure, _init_openai. py_step. cbn [settings].
    destruct (bool_decide (OPENAI_API_KEY s ≠ "") && bool_decide (is_Some (openai env)));
      cbn [settings whisper_model azure_speech_config openai_api_key];
      (destruct (AZURE_SPEECH_KEY s) as [k|]; [|done]);
      (destruct (bool_decide (k = "")); [done|]);
      (destruct (AZURE_SPEECH_REGION s) as [r|]; [|done]);
      (destruct (bool_decide (r = "")); [done|]);
      by destruct (speechsdk env). }
  split_and!.
  - rewrite Hinit. split.
    + intros [e He]. destruct (AZURE_SPEECH_KEY s) as [k|]; [|by left].
      right. exists k. split; [done|].
      case_bool_decide as Hk; [done|].
      destruct (AZURE_SPEECH_REGION s); [done|]. by split.
    + intros [->|(k & -> & Hk & ->)]; [by eexists|].
      rewrite bool_decide_eq_false_2 by done. by eexists.
  - intros Hnone. by rewrite Hinit, Hnone.
  - reflexivity.
Qed.

(** X15: when the settings have both Azure attributes, [__init__] returns a
    service that holds those settings and no whisper model (the model is not
    loaded at construction). It holds an Azure configuration exactly when
    key and region are non-empty and the SDK imported, and has recorded the
    OpenAI key exactly when that key is non-empty and openai imported. *)
Theorem SpeechService_init_builds (s : Settings) k r :
  AZURE_SPEECH_KEY s = Some k →
  AZURE_SPEECH_REGION s = Some r →
  ∃ service,
    SpeechService_init env s = (Return service, service) ∧
    settings service = s ∧
    whisper_model service = None ∧
    azure_speech_config service =
      (if bool_decide (k ≠ "") && bool_decide (r ≠ "") && bool_decide (is_Some (speechsdk env))
       then Some {| subscription := k; region := r; speech_recognition_language := "en-GB" |}
       else None) ∧
    openai_api_key service =
      (if bool_decide (OPENAI_API_KEY s ≠ "") && bool_decide (is_Some (openai env))
       then Some (OPENAI_API_KEY s) else None).
Proof.
  intros Hk Hr. unfold SpeechService_init, _init_azure, _init_openai. py_step.
  cbn [settings].
  destruct (bool_decide (OPENAI_API_KEY s ≠ "") && bool_decide (is_Some (openai env)));
    cbn [settings whisper_model azure_speech_config openai_api_key];
    rewrite Hk, Hr;
    (destruct (decide (k = "")) as [->|Hkne];
      [rewrite bool_decide_eq_true_2 by done; by eexists|]);
    rewrite (bool_decide_eq_false_2 (k = "")) by done;
    rewrite (bool_decide_eq_true_2 (k ≠ "")) by done;
    (destruct (decide (r = "")) as [->|Hrne];
      [rewrite bool_decide_eq_true_2 by done; by eexists|]);
    rewrite (bool_decide_eq_false_2 (r = "")) by done;
    rewrite (bool_decide_eq_true_2 (r ≠ "")) by done;
    (destruct (speechsdk env) as [sdk|];
      [rewrite bool_decide_eq_true_2 by done|rewrite bool_decide_eq_false_2 by (by intros [])]);
    by eexists.
Qed.

End InitMore.

(** * Further properties of the endpoints *)

Section EndpointsMore.
Context (env : Modules).
Implicit Types (self : SpeechService) (audio_data : Dict).

(** X16: a request with a truthy ["audio"] entry is always answered with
    a response body, never with an exception, whether the backend worked or
    not. The body carries the dict [transcribe] returned, its confidence
    again at top level and the language ["en-GB"]; a backend error therefore
    reaches the client as a regular response with confidence [0.0]. *)
Theorem transcribe_audio_answers audio_data audio self :
  audio_data !! "audio" = Some audio →
  truthy audio = true →
  ∃ r self' c,
    transcribe env audio self = (Return r, self') ∧
    r !! "confidence" = Some (VFloat c) ∧
    transcribe_audio env audio_data self =
      (inr {| transcription := r; timestamp := get_timestamp env;
              confidence := VFloat c; language := "en-GB" |}, self') ∧
    (is_Some (r !! "error") → c = float_0_0).
Proof.
  intros Haudio Htruthy.
  destruct (transcribe_result env audio self) as (r & self' & Hrun & Hr & _).
  destruct (backend_result_fields r Hr) as (_ & [c Hc] & _ & Herr & _).
  exists r, self', c. split_and!; [done|done| |].
  - unfold transcribe_audio. rewrite Haudio. cbn [default from_option id].
    rewrite Htruthy. cbn [negb]. rewrite Hrun. by rewrite Hc.
  - intros He. destruct (Herr He) as (_ & Hc0 & _). rewrite Hc in Hc0. by injection Hc0.
Qed.

(** X17: the ["audio"] entry of a JSON body is never [bytes], so the
    OpenAI backend takes a string as the path of a file on the server and
    opens it. When that fails the client gets the error of [open] as a
    regular response; when it succeeds, the content of that file is what is
    sent to the OpenAI client. *)
Theorem one_shot_audio_is_a_path lib audio_data (path : string) self :
  audio_data !! "audio" = Some (VStr path) →
  path ≠ "" →
  lower (SPEECH_RECOGNITION_ENGINE (settings self)) = "openai" →
  openai env = Some lib →
  (∀ e, open_rb env (VStr path) = Raise e →
     transcribe_audio env audio_data self =
       (inr {| transcription := error_result e; timestamp := get_timestamp env;
               confidence := VFloat float_0_0; language := "en-GB" |}, self)) ∧
  (∀ content transcript,
     open_rb env (VStr path) = Return content →
     client_transcribe lib (OPENAI_API_KEY (settings self))
       {| file_name := VStr path; file_data := content |} = Return transcript →
     transcribe_audio env audio_data self =
       (inr {| transcription :=
                 {[ "text" := VStr (t_text transcript);
                    "confidence" := VFloat float_0_9;
                    "language" := VStr (default "en" (t_language transcript));
                    "duration" := from_option VFloat (VInt 0) (t_duration transcript) ]};
               timestamp := get_timestamp env;
               confidence := VFloat float_0_9; language := "en-GB" |}, self)).
Proof.
  intros Haudio Hpath Hengine Hlib.
  assert (Hroute : transcribe env (VStr path) self = _transcribe_openai env (VStr path) self).
  { rewrite transcribe_dispatch, Hengine, Hlib.
    rewrite !bool_decide_eq_true_2 by done. done. }
  assert (Htruthy : truthy (VStr path) = true) by (by apply bool_decide_eq_true_2).
  split.
  - intros e Hopen. unfold transcribe_audio. rewrite Haudio. cbn [default from_option id].
    rewrite Htruthy. cbn [negb]. rewrite Hroute.
    unfold _transcribe_openai. py_step. rewrite Hopen. reflexivity.
  - intros content transcript Hopen Hclient. unfold transcribe_audio.
    rewrite Haudio. cbn [default from_option id].
    rewrite Htruthy. cbn [negb]. rewrite Hroute.
    unfold _transcribe_openai. py_step. rewrite Hopen, Hlib, Hclient. reflexivity.
Qed.

(** A [try] whose handler returns a value never raises. *)
Lemma try_except_returns {S A} (body : Py S A) (handler : Exception → A) (s : S) :
  ∃ r s', try_except body (λ e, py_ret (handler e)) s = (Return r, s').
Proof. unfold try_except, py_ret. destruct (body s) as [[a|e] s']; by eexists _, _. Qed.

Lemma transcribe_realtime_returns (audio_chunk : list Byte.byte) self :
  ∃ r self', transcribe_realtime env audio_chunk self = (Return r, self').
Proof.
  unfold transcribe_realtime.
  apply (try_except_returns _ (λ e, <["error" := VStr (exc_str e)]> not_ready)).
Qed.

Lemma live_transcription_step_spec websocket (audio_chunk : list Byte.byte) self
    (t : Transport LiveMessage) manager :
  ∃ r self',
    transcribe_realtime env audio_chunk self = (Return r, self') ∧
    live_transcription_step env websocket audio_chunk (self, (t, manager)) =
      (Return tt,
       (self',
        (log_events t [attempt t (live_message r) websocket],
         match severed t websocket with
         | Some _ => disconnect websocket manager
         | None => manager
         end))).
Proof.
  destruct (transcribe_realtime_returns audio_chunk self) as (r & self' & Hrt).
  exists r, self'. split; [done|].
  unfold live_transcription_step, py_bind, on_speech, on_net. cbn [fst snd].
  rewrite Hrt. py_step. fold (live_message r).
  by rewrite send_personal_message_spec.
Qed.

(** X18: one turn of the live loop never raises and calls [send_text]
    exactly once, on the connection of the handler. When that send fails
    the connection is unregistered, and the turn still returns normally, so
    the loop goes on receiving and transcribing. *)
Theorem live_transcription_step_returns websocket (audio_chunk : list Byte.byte) self
    (t : Transport LiveMessage) manager :
  ∃ self' message,
    live_transcription_step env websocket audio_chunk (self, (t, manager)) =
      (Return tt,
       (self',
        (log_events t [attempt t message websocket],
         match severed t websocket with
         | Some _ => disconnect websocket manager
         | None => manager
         end))) ∧
    msg_type message = "transcription" ∧ msg_language message = "en-GB".
Proof.
  destruct (live_transcription_step_spec websocket audio_chunk self t manager)
    as (r & self' & _ & Hstep).
  by exists self', (live_message r).
Qed.

Lemma receive_loop_healthy websocket incoming : ∀ self (t : Transport LiveMessage) manager,
  severed t websocket = None →
  ∃ self' messages,
    length messages = length incoming ∧
    receive_loop env websocket incoming (self, (t, manager)) =
      (Return tt,
       (self', (log_events t (map (λ m, Delivered websocket m) messages), manager))).
Proof.
  induction incoming as [|chunk incoming IH]; intros self t manager Hopen.
  - exists self, []. split; [done|]. simpl. by rewrite log_events_nil.
  - destruct (live_transcription_step_spec websocket chunk self t manager)
      as (r & self1 & _ & Hstep).
    destruct (IH self1 (log_events t [attempt t (live_message r) websocket]) manager Hopen)
      as (self' & messages & Hlen & Hloop).
    exists self', (live_message r :: messages). split; [simpl; by rewrite Hlen|].
    cbn [receive_loop]. unfold py_bind. rewrite Hstep, Hopen, Hloop.
    unfold attempt. rewrite Hopen. by rewrite log_events_app.
Qed.

Lemma receive_loop_returns websocket incoming :
  ∀ self (t : Transport LiveMessage) manager,
  ∃ app', receive_loop env websocket incoming (self, (t, manager)) = (Return tt, app').
Proof.
  induction incoming as [|chunk incoming IH]; intros self t manager.
  - by eexists.
  - destruct (live_transcription_step_spec websocket chunk self t manager)
      as (r & self1 & _ & Hstep).
    destruct (IH self1 (log_events t [attempt t (live_message r) websocket])
                (match severed t websocket with
                 | Some _ => disconnect websocket manager
                 | None => manager
                 end)) as [app' Hloop].
    exists app'. cbn [receive_loop]. unfold py_bind at 1. by rewrite Hstep.
Qed.

Lemma disconnect_appended websocket (manager : WebSocketManager) info :
  websocket ∉ active_connections manager →
  connection_info manager !! websocket = None →
  disconnect websocket
    {| active_connections := active_connections manager ++ [websocket];
       connection_info := <[websocket := info]> (connection_info manager) |} = manager.
Proof.
  intros Hnew Hinfo. unfold disconnect. simpl.
  rewrite decide_True by (apply elem_of_app; right; by apply list_elem_of_singleton).
  rewrite list_remove_first_app by done.
  rewrite decide_True by (by rewrite lookup_insert_eq).
  rewrite delete_insert_id by done. rewrite app_nil_r. by destruct manager.
Qed.

(** X19: a whole session on a connection that works. For a connection
    that was not registered, whose [accept] succeeds and whose [send_text]
    does not fail, the handler returns normally after the client closes; it
    has sent exactly one message per chunk received, all to that connection,
    and the registry is again what it was before the session. *)
Theorem live_session_round_trip websocket incoming self (t : Transport LiveMessage) manager :
  accept_error t websocket = None →
  severed t websocket = None →
  websocket ∉ active_connections manager →
  connection_info manager !! websocket = None →
  ∃ self' messages,
    length messages = length incoming ∧
    websocket_live_transcription env websocket incoming (self, (t, manager)) =
      (Return tt,
       (self', (log_events t (map (λ m, Delivered websocket m) messages), manager))).
Proof.
  intros Hacc Hopen Hnew Hinfo.
  destruct (receive_loop_healthy websocket incoming self t
              {| active_connections := active_connections manager ++ [websocket];
                 connection_info :=
                   <[websocket := new_connection_info]> (connection_info manager) |} Hopen)
    as (self' & messages & Hlen & Hloop).
  exists self', messages. split; [done|].
  unfold websocket_live_transcription, py_bind, on_net at 1. cbn [fst snd].
  rewrite (connect_accepted _ _ _ Hacc). unfold App, Net in *. rewrite Hloop.
  unfold on_net, on_manager, py_modify. cbn [fst snd].
  by rewrite disconnect_appended.
Qed.

(** X20: when [accept] raises, the handler raises the same exception at
    once: the connection is not registered, no chunk is received or
    transcribed, and nothing is sent. *)
Theorem live_session_refused websocket incoming ending (app : App) e :
  accept_error app.2.1 websocket = Some e →
  websocket_live_transcription env websocket incoming app = (Raise e, app) ∧
  websocket_live_transcription_until env websocket incoming ending app = (Raise e, app).
Proof.
  intros Hacc. destruct app as [self [t manager]]. cbn [fst snd] in Hacc.
  unfold websocket_live_transcription, websocket_live_transcription_until,
    py_bind, on_net at 1 3.
  cbn [fst snd]. by rewrite (connect_refused _ _ _ e Hacc).
Qed.

(** X21: when [receive_bytes] raises something other than a disconnect,
    the handler leaves the registry and the service exactly as after a clean
    disconnect: the connection is unregistered. But it does not return: the
    [await] of the [None] that [disconnect] returned raises [TypeError],
    which leaves the handler. *)
Theorem live_session_receive_error websocket incoming (app : App) e :
  accept_error app.2.1 websocket = None →
  ∃ app',
    websocket_live_transcription env websocket incoming app = (Return tt, app') ∧
    websocket_live_transcription_until env websocket incoming ClientDisconnect app
      = (Return tt, app') ∧
    websocket_live_transcription_until env websocket incoming (ReceiveError e) app
      = (Raise await_none_error, app').
Proof.
  intros Hacc. destruct app as [self [t manager]]. cbn [fst snd] in Hacc.
  destruct (receive_loop_returns websocket incoming self t
              {| active_connections := active_connections manager ++ [websocket];
                 connection_info :=
                   <[websocket := new_connection_info]> (connection_info manager) |})
    as ([self' [t' manager']] & Hloop).
  exists (self', (t', disconnect websocket manager')).
  unfold websocket_live_transcription, websocket_live_transcription_until,
    py_bind, on_net at 1 3 5.
  cbn [fst snd]. rewrite (connect_accepted _ _ _ Hacc). unfold App, Net in *.
  rewrite Hloop. by split_and!.
Qed.

End EndpointsMore.

(** * The further properties on concrete inputs *)

Lemma whisper_model_cached_witness :
  ∃ m, whisper_model
         (_transcribe_whisper_local (local_env audible_segment) (VBytes a_chunk)
            (service_with "local" "")).2 = Some m.
Proof.
  destruct (whisper_model_cached (local_env audible_segment) (whisper_says " hello " "en")
              (VBytes a_chunk) (service_with "local" "") eq_refl) as (_ & _ & Hload).
  eexists. apply Hload; reflexivity.
Defined.

Lemma transcribe_realtime_result_witness :
  ∃ r self' text,
    transcribe_realtime (local_env audible_segment) a_chunk (service_with "local" "")
      = (Return r, self') ∧
    r !! "text" = Some (VStr text) ∧
    (∃ c, r !! "confidence" = Some (VFloat c)) ∧
    r !! "is_final" = Some (VBool (bool_decide (text ≠ ""))) ∧
    (text ≠ "" →
     r !! "confidence" = Some (VFloat float_0_85) ∧ r !! "error" = None).
Proof.
  apply (transcribe_realtime_result (local_env audible_segment)
           (pydub_decodes audible_segment) a_chunk (service_with "local" "")).
  reflexivity.
Defined.

Lemma undecodable_chunk_looks_silent_witness :
  transcribe_realtime undecodable_env a_chunk (service_with "local" "") =
    (Return (<["error" := VStr "data length must be a multiple of the frame width"]> not_ready),
     service_with "local" "") ∧
  live_transcription_step undecodable_env 1 a_chunk
      (service_with "local" "", (healthy_transport, three_registered)) =
    (Return tt,
     (service_with "local" "",
      (send_personal_message quiet_message 1 (healthy_transport, three_registered)).2)).
Proof.
  apply (undecodable_chunk_looks_silent undecodable_env pydub_fails a_chunk
           (service_with "local" "")
           (Exc "data length must be a multiple of the frame width")
           healthy_transport three_registered 1).
  - reflexivity.
  - left. reflexivity.
Defined.

Lemma realtime_without_pydub_witness :
  ∃ r self',
    transcribe bare_env (VBytes a_chunk) (service_with "local" "") = (Return r, self') ∧
    transcribe_realtime bare_env a_chunk (service_with "local" "") = (Return r, self') ∧
    r !! "is_final" = None ∧
    msg_is_final (live_message r) = VBool false ∧
    live_transcription_step bare_env 1 a_chunk
        (service_with "local" "", (healthy_transport, three_registered)) =
      (Return tt,
       (self',
        (send_personal_message (live_message r) 1 (healthy_transport, three_registered)).2)).
Proof.
  apply (realtime_without_pydub bare_env a_chunk (service_with "local" "")
           (healthy_transport, three_registered) 1).
  reflexivity.
Defined.

Lemma azure_needs_config_witness :
  ∃ message,
    _transcribe_azure azure_env (VBytes a_chunk) (service_with "azure" "") =
      (Return {[ "text" := VStr ""; "confidence" := VFloat float_0_0;
                 "error" := VStr message ]}, service_with "azure" "").
Proof.
  apply (azure_needs_config azure_env (VBytes a_chunk) (service_with "azure" "")).
  reflexivity.
Defined.

Lemma transcribe_nothing_installed_witness :
  transcribe bare_env (VBytes a_chunk) (service_with "OpenAI" "sk-test") =
    (Return {[ "text" := VStr ""; "confidence" := VFloat float_0_0;
               "error" := VStr "Whisper not installed" ]}, service_with "OpenAI" "sk-test").
Proof.
  apply (transcribe_nothing_installed bare_env (VBytes a_chunk)
           (service_with "OpenAI" "sk-test")); reflexivity.
Defined.

Lemma SpeechService_init_builds_witness :
  ∃ service,
    SpeechService_init (cloud_env audible_segment) azure_settings = (Return service, service) ∧
    settings service = azure_settings ∧
    whisper_model service = None ∧
    azure_speech_config service =
      (if bool_decide ("azure-key" ≠ "") && bool_decide ("uksouth" ≠ "")
          && bool_decide (is_Some (speechsdk (cloud_env audible_segment)))
       then Some {| subscription := "azure-key"; region := "uksouth";
                    speech_recognition_language := "en-GB" |}
       else None) ∧
    openai_api_key service =
      (if bool_decide (OPENAI_API_KEY azure_settings ≠ "")
          && bool_decide (is_Some (openai (cloud_env audible_segment)))
       then Some (OPENAI_API_KEY azure_settings) else None).
Proof.
  apply (SpeechService_init_builds (cloud_env audible_segment) azure_settings
           "azure-key" "uksouth"); reflexivity.
Defined.

Lemma transcribe_audio_answers_witness :
  ∃ r self' c,
    transcribe bare_env (VStr "/srv/audio/clip.wav") (service_with "local" "")
      = (Return r, self') ∧
    r !! "confidence" = Some (VFloat c) ∧
    transcribe_audio bare_env path_body (service_with "local" "") =
      (inr {| transcription := r; timestamp := get_timestamp bare_env;
              confidence := VFloat c; language := "en-GB" |}, self') ∧
    (is_Some (r !! "error") → c = float_0_0).
Proof.
  apply (transcribe_audio_answers bare_env path_body (VStr "/srv/audio/clip.wav")
           (service_with "local" "")); reflexivity.
Defined.

Lemma one_shot_audio_is_a_path_witness :
  transcribe_audio (cloud_env audible_segment) path_body (service_with "OpenAI" "sk-test") =
    (inr {| transcription := error_result (Exc "No such file or directory");
            timestamp := get_timestamp (cloud_env audible_segment);
            confidence := VFloat float_0_0; language := "en-GB" |},
     service_with "OpenAI" "sk-test").
Proof.
  destruct (one_shot_audio_is_a_path (cloud_env audible_segment) openai_key_checked
              path_body "/srv/audio/clip.wav" (service_with "OpenAI" "sk-test"))
    as [Hfail _]; [reflexivity|discriminate|reflexivity|reflexivity|].
  apply Hfail. reflexivity.
Defined.

Lemma live_session_round_trip_witness :
  ∃ self' messages,
    length messages = length [a_chunk; a_chunk] ∧
    websocket_live_transcription (local_env audible_segment) 4 [a_chunk; a_chunk]
        (service_with "local" "", (healthy_transport, three_registered)) =
      (Return tt,
       (self',
        (log_events healthy_transport (map (λ m, Delivered 4 m) messages),
         three_registered))).
Proof.
  apply (live_session_round_trip (local_env audible_segment) 4 [a_chunk; a_chunk]
           (service_with "local" "") healthy_transport three_registered).
  - reflexivity.
  - reflexivity.
  - vm_compute. intros Hin. repeat (apply elem_of_cons in Hin as [Hin|Hin]; [discriminate|]).
    by apply elem_of_nil in Hin.
  - reflexivity.
Defined.

Lemma live_session_refused_witness :
  websocket_live_transcription (local_env audible_segment) 4 [a_chunk]
      (service_with "local" "", (refusing_transport, three_registered)) =
    (Raise (Exc "handshake failed"),
     (service_with "local" "", (refusing_transport, three_registered))) ∧
  websocket_live_transcription_until (local_env audible_segment) 4 [a_chunk] ClientDisconnect
      (service_with "local" "", (refusing_transport, three_registered)) =
    (Raise (Exc "handshake failed"),
     (service_with "local" "", (refusing_transport, three_registered))).
Proof.
  apply (live_session_refused (local_env audible_segment) 4 [a_chunk] ClientDisconnect
           (service_with "local" "", (refusing_transport, three_registered))
           (Exc "handshake failed")).
  reflexivity.
Defined.

Lemma live_session_receive_error_witness :
  ∃ app',
    websocket_live_transcription (local_env audible_segment) 4 [a_chunk]
        (service_with "local" "", (healthy_transport, three_registered)) = (Return tt, app') ∧
    websocket_live_transcription_until (local_env audible_segment) 4 [a_chunk] ClientDisconnect
        (service_with "local" "", (healthy_transport, three_registered)) = (Return tt, app') ∧
    websocket_live_transcription_until (local_env audible_segment) 4 [a_chunk]
        (ReceiveError (Exc "unexpected text frame"))
        (service_with "local" "", (healthy_transport, three_registered))
      = (Raise await_none_error, app').
Proof.
  apply (live_session_receive_error (local_env audible_segment) 4 [a_chunk]
           (service_with "local" "", (healthy_transport, three_registered))
           (Exc "unexpected text frame")).
  reflexivity.
Defined.
